(** * Order fulfilment of ldc-shop ([processOrderFulfillment])

    A shallow embedding of [_workers_next]'s order-processing routine and of
    the store it talks to, followed by the properties its specification
    states about it.

    - JavaScript numbers are IEEE 754 binary64 values: [PrimFloat.float].
      Quantities and row limits are natural numbers, timestamps integer
      milliseconds.
    - The store is a record of tables.  Orders are keyed by [orderId]
      (unique), products by [id]; the cards table is a list in row order,
      which is the order a [SELECT] without [ORDER BY] yields its rows in.
    - Every [await db...] of the source is one command of a small program
      type [Prog]; a command is executed atomically against the store.  The
      same program text is run alone ([run]) or interleaved with other calls
      at its [await] points ([runSchedule]).
    - A statement that names a column the cards table does not have raises;
      this is the failure the source's [catch] block is written for
      ("reservedOrderId column might not exist").
    - [Array(n)] raises a RangeError for a length of 2^32 or more
      ([InvalidArrayLength]); limits of memory are not modelled.
    - A call has one clock reading, [now env]: it stands for the
      [Date.now()] of the call and for every [new Date()] the call writes.
      In a real run the readings of one call lie some milliseconds apart;
      the closed forms of the store write them all as [now env]. *)

From Stdlib Require Import Floats ZArith Uint63 Ascii List Lia.
From stdpp Require Import gmap strings list.
Import ListNotations.

Set Warnings "-inexact-float".

(** ** Data model *)

Module Order.
Record t := mk {
  productId : string;
  amount : string;              (* decimal text, read with parseFloat *)
  quantity : option nat;        (* nullable; [order.quantity || 1] *)
  status : string;
  paidAt : option Z;
  deliveredAt : option Z;
  tradeNo : option string;
  cardKey : option string;
  currentPaymentId : option string
}.
End Order.

Module Product.
Record t := mk { isShared : option bool }.
End Product.

Module Card.
Record t := mk {
  id : Z;
  productId : string;
  cardKey : string;
  isUsed : option bool;          (* nullable; [COALESCE(is_used, 0)] *)
  usedAt : option Z;
  reservedOrderId : option string;
  reservedAt : option Z          (* milliseconds, as [Date.now()] *)
}.
End Card.

(** The projection [select({ id, cardKey })] of a cards row. *)
Module Row.
Record t := mk { id : Z; cardKey : string }.
End Row.

Record Db := mkDb {
  orders : gmap string Order.t;
  products : gmap string Product.t;
  cards : list Card.t;
  has_reservedOrderId : bool;      (* does cards.reserved_order_id exist *)
  has_reservedAt : bool            (* does cards.reserved_at exist *)
}.

(** What a call reads from its surroundings: the clock and the draw of
    [ORDER BY RANDOM()]. *)
Record Env := mkEnv { now : Z; rnd : nat }.

Inductive Error :=
| OrderNotFound (orderId : string)
| AmountMismatch (orderMoney paidAmount : float)
| NoSuchColumn (column : string)
| InvalidArrayLength.              (* the RangeError of [Array(n)] *)

Inductive ResultStatus := processed | already_processed.

Record Result := mkResult { success : bool; status : ResultStatus }.

Inductive Exc (X : Type) : Type :=
| Ok (x : X)
| Raise (e : Error).
Arguments Ok {X} x.
Arguments Raise {X} e.

(** ** Store statements *)

(** The two [.set({...})] shapes on cards (lines 121-126 and 147-150). *)
Inductive CardPatch := ClaimReserved | ClaimAvailable.

(** The three [.set({...})] shapes on orders: paid (lines 42-46, 99, 174),
    delivered (lines 162-168), delivered for a shared product (lines 82-89). *)
Inductive OrderPatch :=
| SetPaid (tradeNo : string)
| SetDelivered (tradeNo : string) (cardKey : string)
| SetDeliveredShared (tradeNo : string) (cardKey : string).

(** The statements of the routine, one per [await db...]; [DateNow] is the
    [Date.now()] of line 110, a read of the clock between two statements. *)
Inductive Cmd : Type -> Type :=
| FindOrder (orderId : string) : Cmd (option Order.t)
| FindProduct (productId : string) : Cmd (option Product.t)
| SelectSharedCard (productId : string) : Cmd (list Row.t)
| SelectReservedCards (orderId : string) (limit : nat) : Cmd (list Row.t)
| SelectAvailableCards (productId : string) (oneMinuteAgo : Z) (limit : nat)
    : Cmd (list Row.t)
| UpdateCard (id : Z) (set : CardPatch) : Cmd unit
| UpdateOrder (orderId : string) (set : OrderPatch) : Cmd unit
| DateNow : Cmd Z.

(** [COALESCE(is_used, 0) = 0] *)
Definition unused (c : Card.t) : bool :=
  match Card.isUsed c with
  | Some true => false
  | _ => true
  end.

(** [product_id = pid AND COALESCE(is_used, 0) = 0] (line 70) *)
Definition sharedEligible (pid : string) (c : Card.t) : bool :=
  String.eqb (Card.productId c) pid && unused c.

(** [reserved_order_id = oid AND COALESCE(is_used, 0) = 0] (line 116) *)
Definition reservedFor (oid : string) (c : Card.t) : bool :=
  match Card.reservedOrderId c with
  | Some r => String.eqb r oid
  | None => false
  end && unused c.

(** [reserved_at IS NULL OR reserved_at < oneMinuteAgo] *)
Definition notFreshlyReserved (oneMinuteAgo : Z) (c : Card.t) : bool :=
  match Card.reservedAt c with
  | None => true
  | Some t => (t <? oneMinuteAgo)%Z
  end.

(** The [where] of line 142. *)
Definition available (pid : string) (oneMinuteAgo : Z) (c : Card.t) : bool :=
  String.eqb (Card.productId c) pid && unused c
  && notFreshlyReserved oneMinuteAgo c.

Definition toRow (c : Card.t) : Row.t := Row.mk (Card.id c) (Card.cardKey c).

(** [ORDER BY RANDOM() LIMIT 1]: one of the rows, chosen by the draw. *)
Definition pickOne {A} (draw : nat) (l : list A) : list A :=
  take 1 (drop (draw mod length l) l).

Definition applyCardPatch (t : Z) (p : CardPatch) (c : Card.t) : Card.t :=
  match p with
  | ClaimReserved =>
      Card.mk (Card.id c) (Card.productId c) (Card.cardKey c)
              (Some true) (Some t) None None
  | ClaimAvailable =>
      Card.mk (Card.id c) (Card.productId c) (Card.cardKey c)
              (Some true) (Some t) (Card.reservedOrderId c) (Card.reservedAt c)
  end.

(** [update(cards).set(p).where(eq(cards.id, id))] *)
Definition updateCards (t : Z) (id : Z) (p : CardPatch) (cs : list Card.t)
  : list Card.t :=
  map (fun c => if (Card.id c =? id)%Z then applyCardPatch t p c else c) cs.

Definition applyOrderPatch (t : Z) (p : OrderPatch) (o : Order.t) : Order.t :=
  match p with
  | SetPaid tn =>
      Order.mk (Order.productId o) (Order.amount o) (Order.quantity o)
               "paid" (Some t) (Order.deliveredAt o) (Some tn)
               (Order.cardKey o) (Order.currentPaymentId o)
  | SetDelivered tn keys =>
      Order.mk (Order.productId o) (Order.amount o) (Order.quantity o)
               "delivered" (Some t) (Some t) (Some tn)
               (Some keys) (Order.currentPaymentId o)
  | SetDeliveredShared tn keys =>
      Order.mk (Order.productId o) (Order.amount o) (Order.quantity o)
               "delivered" (Some t) (Some t) (Some tn)
               (Some keys) None
  end.

Definition withOrders (db : Db) (os : gmap string Order.t) : Db :=
  mkDb os (products db) (cards db) (has_reservedOrderId db) (has_reservedAt db).

Definition withCards (db : Db) (cs : list Card.t) : Db :=
  mkDb (orders db) (products db) cs (has_reservedOrderId db) (has_reservedAt db).

(** One statement against the store.  [new Date()] inside a [.set] is read
    as the statement is issued. *)
Definition exec (env : Env) {X} (c : Cmd X) (db : Db) : Exc X * Db :=
  match c in Cmd X return Exc X * Db with
  | FindOrder oid => (Ok (orders db !! oid), db)
  | FindProduct pid => (Ok (products db !! pid), db)
  | SelectSharedCard pid =>
      (Ok (pickOne (rnd env)
             (map toRow (List.filter (sharedEligible pid) (cards db)))), db)
  | SelectReservedCards oid limit =>
      if has_reservedOrderId db
      then (Ok (take limit
                  (map toRow (List.filter (reservedFor oid) (cards db)))), db)
      else (Raise (NoSuchColumn "reserved_order_id"), db)
  | SelectAvailableCards pid oneMinuteAgo limit =>
      if has_reservedAt db
      then (Ok (take limit
                  (map toRow
                     (List.filter (available pid oneMinuteAgo) (cards db)))),
            db)
      else (Raise (NoSuchColumn "reserved_at"), db)
  | UpdateCard id ClaimReserved =>
      if negb (has_reservedOrderId db)
      then (Raise (NoSuchColumn "reserved_order_id"), db)
      else if negb (has_reservedAt db)
      then (Raise (NoSuchColumn "reserved_at"), db)
      else (Ok tt, withCards db (updateCards (now env) id ClaimReserved (cards db)))
  | UpdateCard id ClaimAvailable =>
      (Ok tt, withCards db (updateCards (now env) id ClaimAvailable (cards db)))
  | UpdateOrder oid p =>
      (Ok tt, withOrders db (alter (applyOrderPatch (now env) p) oid (orders db)))
  | DateNow => (Ok (now env), db)
  end.

(** ** Programs *)

(** A call is a tree of statements.  The continuation of a statement
    receives its outcome, so a [try]/[catch] around it is a [match]. *)
Inductive Prog (A : Type) : Type :=
| Ret (a : A)
| Throw (e : Error)
| Do {X : Type} (c : Cmd X) (k : Exc X -> Prog A).
Arguments Ret {A} a.
Arguments Throw {A} e.
Arguments Do {A X} c k.

Fixpoint bind {A B} (p : Prog A) (f : A -> Prog B) : Prog B :=
  match p with
  | Ret a => f a
  | Throw e => Throw e
  | Do c k => Do c (fun r => bind (k r) f)
  end.

(** [await] outside any [try]: a failure propagates. *)
Definition await {X} (c : Cmd X) : Prog X :=
  Do c (fun r => match r with Ok x => Ret x | Raise e => Throw e end).

Declare Scope prog_scope.
Delimit Scope prog_scope with prog.
Notation "x <- p ;; q" := (bind p (fun x => q))
  (at level 100, p at next level, right associativity) : prog_scope.
Notation "p ;;; q" := (bind p (fun _ => q))
  (at level 100, right associativity) : prog_scope.
Local Open Scope prog_scope.

(** Run a call to its end with no other call in between. *)
Fixpoint run (env : Env) {A} (p : Prog A) (db : Db) : Exc A * Db :=
  match p with
  | Ret a => (Ok a, db)
  | Throw e => (Raise e, db)
  | Do c k => let '(r, db') := exec env c db in run env (k r) db'
  end.

(** The statements a call issues, in order. *)
Inductive Label :=
| LFindOrder (orderId : string)
| LFindProduct (productId : string)
| LSelectSharedCard (productId : string)
| LSelectReservedCards (orderId : string) (limit : nat)
| LSelectAvailableCards (productId : string) (oneMinuteAgo : Z) (limit : nat)
| LUpdateCard (id : Z) (set : CardPatch)
| LUpdateOrder (orderId : string) (set : OrderPatch)
| LDateNow.

Definition label {X} (c : Cmd X) : Label :=
  match c with
  | FindOrder oid => LFindOrder oid
  | FindProduct pid => LFindProduct pid
  | SelectSharedCard pid => LSelectSharedCard pid
  | SelectReservedCards oid n => LSelectReservedCards oid n
  | SelectAvailableCards pid t n => LSelectAvailableCards pid t n
  | UpdateCard id p => LUpdateCard id p
  | UpdateOrder oid p => LUpdateOrder oid p
  | DateNow => LDateNow
  end.

Fixpoint trace (env : Env) {A} (p : Prog A) (db : Db) : list Label :=
  match p with
  | Ret _ | Throw _ => []
  | Do c k => let '(r, db') := exec env c db in label c :: trace env (k r) db'
  end.

(** A statement on the cards table: the allocation engine at work. *)
Definition onCards (l : Label) : bool :=
  match l with
  | LSelectSharedCard _ | LSelectReservedCards _ _
  | LSelectAvailableCards _ _ _ | LUpdateCard _ _ => true
  | _ => false
  end.

(** Several calls in flight.  A schedule names, step by step, the call whose
    pending statement is executed next. *)
Definition stepCall (env : Env) {A} (p : Prog A) (db : Db) : Prog A * Db :=
  match p with
  | Do c k => let '(r, db') := exec env c db in (k r, db')
  | _ => (p, db)
  end.

Fixpoint runSchedule (env : Env) {A} (sched : list nat)
    (calls : list (Prog A)) (db : Db) : list (Prog A) * Db :=
  match sched with
  | [] => (calls, db)
  | i :: sched' =>
      match calls !! i with
      | Some p =>
          let '(p', db') := stepCall env p db in
          runSchedule env sched' (<[i := p']> calls) db'
      | None => runSchedule env sched' calls db
      end
  end.

(** A call that has come to its end with outcome [r]. *)
Definition finished {A} (r : Exc A) : Prog A :=
  match r with
  | Ok a => Ret a
  | Raise e => Throw e
  end.

(** ** The fulfilment routine *)

Definition nl : string := String "010"%char EmptyString.

(** [cardKeys.join('\n')] *)
Definition join (keys : list string) : string := String.concat nl keys.

(** [order.quantity || 1] *)
Definition quantityOr1 (q : option nat) : nat :=
  match q with
  | Some (S n) => S n
  | _ => 1
  end.

(** [order.status === 'pending' || order.status === 'cancelled'] *)
Definition pendingOrCancelled (s : string) : bool :=
  String.eqb s "pending" || String.eqb s "cancelled".

(** [product?.isShared] used as a condition. *)
Definition isSharedProduct (p : option Product.t) : bool :=
  match p with
  | Some (Product.mk (Some true)) => true
  | _ => false
  end.

(** [Math.abs(paidAmount - orderMoney) > 0.01] *)
Definition amountMismatch (paidAmount orderMoney : float) : bool :=
  PrimFloat.ltb 0.01%float (PrimFloat.abs (PrimFloat.sub paidAmount orderMoney)).

Definition processed_ : Result := mkResult true processed.
Definition already_processed_ : Result := mkResult true already_processed.

(** Lines 119-129, inside the [try]: a failing update leaves the loop for
    the [catch], with the keys pushed so far. *)
Fixpoint claimReservedLoop (reservedCards : list Row.t) (cardKeys : list string)
  : Prog (list string) :=
  match reservedCards with
  | [] => Ret cardKeys
  | card :: rest =>
      Do (UpdateCard (Row.id card) ClaimReserved)
         (fun r => match r with
                   | Ok _ => claimReservedLoop rest (cardKeys ++ [Row.cardKey card])
                   | Raise _ => Ret cardKeys
                   end)
  end.

(** Phase 1, lines 113-133. *)
Definition claimReserved (orderId : string) (quantity : nat)
  : Prog (list string) :=
  Do (SelectReservedCards orderId quantity)
     (fun r => match r with
               | Ok reservedCards => claimReservedLoop reservedCards []
               | Raise _ => Ret []
               end).

(** Lines 145-153. *)
Fixpoint claimAvailableLoop (availableCards : list Row.t)
    (cardKeys : list string) : Prog (list string) :=
  match availableCards with
  | [] => Ret cardKeys
  | card :: rest =>
      await (UpdateCard (Row.id card) ClaimAvailable) ;;;
      claimAvailableLoop rest (cardKeys ++ [Row.cardKey card])
  end.

(** Phase 2, lines 136-154. *)
Definition claimAvailable (productId : string) (oneMinuteAgo : Z)
    (quantity : nat) (cardKeys : list string) : Prog (list string) :=
  if length cardKeys <? quantity then
    let needed := quantity - length cardKeys in
    availableCards <- await (SelectAvailableCards productId oneMinuteAgo needed) ;;
    claimAvailableLoop availableCards cardKeys
  else Ret cardKeys.

(** Lines 158-178. *)
Definition settle (orderId tradeNo : string) (cardKeys : list string)
  : Prog Result :=
  if 0 <? length cardKeys then
    await (UpdateOrder orderId (SetDelivered tradeNo (join cardKeys))) ;;;
    Ret processed_
  else
    await (UpdateOrder orderId (SetPaid tradeNo)) ;;;
    Ret processed_.

(** [Array(n)] is a RangeError for a length of 2^32 or more. *)
Definition arrayTooLong (n : nat) : bool := (4294967296 <=? Z.of_nat n)%Z.

(** Lines 63-104. *)
Definition fulfillShared (orderId tradeNo : string) (order : Order.t)
  : Prog Result :=
  availableCard <- await (SelectSharedCard (Order.productId order)) ;;
  match availableCard with
  | card :: _ =>
      let key := Row.cardKey card in
      if arrayTooLong (quantityOr1 (Order.quantity order))
      then Throw InvalidArrayLength
      else
        let cardKeys := replicate (quantityOr1 (Order.quantity order)) key in
        await (UpdateOrder orderId
                 (SetDeliveredShared tradeNo (join cardKeys))) ;;;
        Ret processed_
  | [] =>
      await (UpdateOrder orderId (SetPaid tradeNo)) ;;;
      Ret processed_
  end.

(** Lines 106-178. *)
Definition fulfillExhaustible (orderId tradeNo : string) (order : Order.t)
  : Prog Result :=
  let quantity := quantityOr1 (Order.quantity order) in
  t <- await DateNow ;;
  let oneMinuteAgo := (t - 60000)%Z in
  cardKeys <- claimReserved orderId quantity ;;
  cardKeys <- claimAvailable (Order.productId order) oneMinuteAgo quantity cardKeys ;;
  settle orderId tradeNo cardKeys.

Section Fulfillment.

(** [parseFloat] is the JavaScript built-in; [isPaymentOrder] comes from
    [@/lib/payment]. *)
Variable parseFloat : string -> float.
Variable isPaymentOrder : string -> bool.

Definition processOrderFulfillment (orderId : string) (paidAmount : float)
    (tradeNo : string) : Prog Result :=
  found <- await (FindOrder orderId) ;;
  match found with
  | None => Throw (OrderNotFound orderId)
  | Some order =>
      let orderMoney := parseFloat (Order.amount order) in
      if amountMismatch paidAmount orderMoney then
        Throw (AmountMismatch orderMoney paidAmount)
      else if isPaymentOrder (Order.productId order) then
        if pendingOrCancelled (Order.status order) then
          await (UpdateOrder orderId (SetPaid tradeNo)) ;;;
          Ret processed_
        else Ret processed_
      else if pendingOrCancelled (Order.status order) then
        product <- await (FindProduct (Order.productId order)) ;;
        if isSharedProduct product then fulfillShared orderId tradeNo order
        else fulfillExhaustible orderId tradeNo order
      else Ret already_processed_
  end.

(** Calls made one after the other, each with its own arguments and
    surroundings. *)
Record Call := mkCall {
  callEnv : Env;
  callOrderId : string;
  callPaidAmount : float;
  callTradeNo : string
}.

Definition runCall (db : Db) (c : Call) : Db :=
  snd (run (callEnv c)
           (processOrderFulfillment (callOrderId c) (callPaidAmount c)
                                    (callTradeNo c))
           db).

Definition runCalls (calls : list Call) (db : Db) : Db :=
  foldl runCall db calls.

Definition traceCall (db : Db) (c : Call) : list Label :=
  trace (callEnv c)
        (processOrderFulfillment (callOrderId c) (callPaidAmount c)
                                 (callTradeNo c))
        db.

End Fulfillment.

(** ** What a call does, in closed form *)

(** The cards after the updates of a claim loop over [rows]. *)
Definition markAll (t : Z) (p : CardPatch) (rows : list Row.t)
    (cs : list Card.t) : list Card.t :=
  foldl (fun cs r => updateCards t (Row.id r) p cs) cs rows.

(** Is the card one of those the loop over [rows] updates. *)
Definition claimedBy (rows : list Row.t) (c : Card.t) : bool :=
  existsb (fun r => (Card.id c =? Row.id r)%Z) rows.

(** The rows phase 1 claims: none when a reservation column is missing. *)
Definition reservedRows (orderId : string) (quantity : nat) (db : Db)
  : list Row.t :=
  if has_reservedOrderId db && has_reservedAt db
  then take quantity (map toRow (List.filter (reservedFor orderId) (cards db)))
  else [].

(** The rows phase 2 selects when [already] keys are in hand. *)
Definition availableRows (productId : string) (oneMinuteAgo : Z)
    (quantity already : nat) (cs : list Card.t) : list Row.t :=
  if already <? quantity
  then take (quantity - already)
            (map toRow (List.filter (available productId oneMinuteAgo) cs))
  else [].

(** The order update that ends a call, by the keys in hand (lines 158-177). *)
Definition settlePatch (tradeNo : string) (cardKeys : list string) : OrderPatch :=
  if 0 <? length cardKeys then SetDelivered tradeNo (join cardKeys)
  else SetPaid tradeNo.

Definition patchOrder (env : Env) (orderId : string) (p : OrderPatch) (db : Db)
  : Db :=
  withOrders db (alter (applyOrderPatch (now env) p) orderId (orders db)).

(** The rows an exhaustible-product call claims, phase 1 then phase 2, and
    the cards table once they are marked. *)
Section Claimed.

Variables (env : Env) (orderId : string) (order : Order.t) (db : Db).

Let quantity := quantityOr1 (Order.quantity order).

Definition phase1Rows : list Row.t := reservedRows orderId quantity db.

Definition phase1Cards : list Card.t :=
  markAll (now env) ClaimReserved phase1Rows (cards db).

Definition phase2Rows : list Row.t :=
  availableRows (Order.productId order) (now env - 60000)%Z quantity
                (length phase1Rows) phase1Cards.

Definition phase2Cards : list Card.t :=
  markAll (now env) ClaimAvailable phase2Rows phase1Cards.

Definition claimedRows : list Row.t := phase1Rows ++ phase2Rows.

Definition claimedKeys : list string := map Row.cardKey claimedRows.

End Claimed.

(** The row a shared-product call reads (line 68-72). *)
Definition sharedRow (env : Env) (order : Order.t) (db : Db) : list Row.t :=
  pickOne (rnd env)
          (map toRow (List.filter (sharedEligible (Order.productId order))
                                  (cards db))).

Definition sharedPatch (tradeNo : string) (order : Order.t)
    (availableCard : list Row.t) : OrderPatch :=
  match availableCard with
  | card :: _ =>
      SetDeliveredShared tradeNo
        (join (replicate (quantityOr1 (Order.quantity order)) (Row.cardKey card)))
  | [] => SetPaid tradeNo
  end.

(** Does the shared path stop at [Array(order.quantity || 1)] (line 77): a
    row was read and the length is out of range. *)
Definition sharedOverflow (env : Env) (order : Order.t) (db : Db) : bool :=
  match sharedRow env order db with
  | _ :: _ => arrayTooLong (quantityOr1 (Order.quantity order))
  | [] => false
  end.

(** The store with the row of [orderId] replaced. *)
Definition setOrder (db : Db) (orderId : string) (o : Order.t) : Db :=
  withOrders db (<[orderId := o]> (orders db)).

(** ** A concrete setting for worked examples *)

(** [parseFloat] on plain decimal numerals (digits, optionally a point and
    more digits) of at most 15 digits, the form amounts are stored in: the
    quotient of two integers that binary64 holds exactly is rounded once,
    to the nearest value, as the numeral is.  Anything else reads as NaN
    here; on signs, exponents, a leading point, trailing text and longer
    numerals this is not [parseFloat], and the examples use none of
    them. *)
Fixpoint digits (s : string) (acc : Z) : option Z :=
  match s with
  | EmptyString => Some acc
  | String c rest =>
      let n := Z.of_nat (nat_of_ascii c) in
      if ((48 <=? n) && (n <=? 57))%Z
      then digits rest (10 * acc + (n - 48))%Z
      else None
  end.

Fixpoint splitAtPoint (s : string) : string * option string :=
  match s with
  | EmptyString => (EmptyString, None)
  | String c rest =>
      if Ascii.eqb c "."%char then (EmptyString, Some rest)
      else let '(a, b) := splitAtPoint rest in (String c a, b)
  end.

Definition parseDecimal (s : string) : float :=
  let '(whole, frac) := splitAtPoint s in
  let frac := default EmptyString frac in
  match whole, digits (String.append whole frac) 0 with
  | String _ _, Some n =>
      PrimFloat.div (PrimFloat.of_uint63 (Uint63.of_Z n))
                    (PrimFloat.of_uint63
                       (Uint63.of_Z (10 ^ Z.of_nat (String.length frac))))
  | _, _ => PrimFloat.nan
  end.

(** The payment-only product of the examples. *)
Definition isPaymentProduct (productId : string) : bool :=
  String.eqb productId "payment".

(** The routine in the setting of the examples. *)
Abbreviation fulfill0 := (processOrderFulfillment parseDecimal isPaymentProduct).

Module Ex.

Definition env0 : Env := mkEnv 1000000 0.

(** A fresh order, as checkout leaves it. *)
Definition order (productId amount : string) (quantity : nat)
    (status : string) : Order.t :=
  Order.mk productId amount (Some quantity) status None None None None
           (Some "pay-1").

Definition card (id : Z) (productId cardKey : string) : Card.t :=
  Card.mk id productId cardKey None None None None.

Definition reservedCard (id : Z) (productId cardKey orderId : string)
    (reservedAt : Z) : Card.t :=
  Card.mk id productId cardKey (Some false) None (Some orderId)
          (Some reservedAt).

Definition store (os : list (string * Order.t))
    (ps : list (string * Product.t)) (cs : list Card.t) : Db :=
  mkDb (list_to_map os) (list_to_map ps) cs true true.

Definition exhaustible : Product.t := Product.mk (Some false).
Definition shared : Product.t := Product.mk (Some true).

(** One pending order of 9.99 for one unit of [p1]; one unit in stock. *)
Definition o1 : Order.t := order "p1" "9.99" 1 "pending".
Definition db1 : Db :=
  store [("o1", o1)] [("p1", exhaustible)] [card 1 "p1" "K1"].

(** The same order once delivered. *)
Definition o1_delivered : Order.t :=
  Order.mk "p1" "9.99" (Some 1) "delivered" (Some 5%Z) (Some 5%Z) (Some "T0")
           (Some "K1") (Some "pay-1").
Definition db1_delivered : Db :=
  store [("o1", o1_delivered)] [("p1", exhaustible)]
        [Card.mk 1 "p1" "K1" (Some true) (Some 5%Z) None None].

(** A payment-only order, pending and then paid. *)
Definition pay1 : Order.t := order "payment" "5.00" 1 "pending".
Definition db_pay : Db := store [("o9", pay1)] [] [card 1 "p1" "K1"].
Definition pay1_paid : Order.t :=
  Order.mk "payment" "5.00" (Some 1) "paid" (Some 5%Z) None (Some "T0") None
           (Some "pay-1").
Definition db_pay_paid : Db :=
  store [("o9", pay1_paid)] [] [card 1 "p1" "K1"].


(** Three units of a shared product ordered, one unit [K1]. *)
Definition o4 : Order.t := order "ps" "9.99" 3 "pending".
Definition db_shared : Db :=
  store [("o4", o4)] [("ps", shared)] [card 7 "ps" "K1"].

(** The same order for [quantity] units, and 2^32 as a quantity. *)
Definition o_bulk (quantity : nat) : Order.t :=
  order "ps" "9.99" quantity "pending".
Definition db_bulk (quantity : nat) : Db :=
  store [("o4", o_bulk quantity)] [("ps", shared)] [card 7 "ps" "K1"].
Definition twoTo32 : nat := Z.to_nat 4294967296.

(** Order [b] needs two units.  Unit 1 was reserved for order [a] two
    minutes ago, unit 2 one second ago, unit 3 is free. *)
Definition ob : Order.t := order "p1" "9.99" 2 "pending".
Definition db_stale : Db :=
  store [("a", order "p1" "9.99" 2 "pending"); ("b", ob)]
        [("p1", exhaustible)]
        [reservedCard 1 "p1" "K1" "a" 880000;
         reservedCard 2 "p1" "K2" "a" 999000;
         card 3 "p1" "K3"].

(** A unit whose key is the empty string. *)
Definition db_emptykey : Db :=
  store [("o1", o1)] [("p1", exhaustible)] [card 1 "p1" ""].

(** [db1] before the reservation columns were added to the cards table. *)
Definition db_nocols : Db :=
  mkDb (orders db1) (products db1) (cards db1) false false.

(** Two orders of one unit each, two units in stock. *)
Definition oa1 : Order.t := order "p1" "9.99" 1 "pending".
Definition db_race : Db :=
  store [("a", oa1); ("b", oa1)] [("p1", exhaustible)]
        [card 1 "p1" "K1"; card 2 "p1" "K2"].

(** Both calls read the order, the product, the clock, their reservations
    and the pool before either marks a card; then each marks and settles. *)
Definition racy : list nat := [0; 0; 0; 0; 0; 1; 1; 1; 1; 1; 0; 0; 1; 1].

(** The first call runs to its end before the second starts. *)
Definition serial : list nat := [0; 0; 0; 0; 0; 0; 0; 1; 1; 1; 1; 1; 1; 1].

Definition delivered (o : Order.t) (tradeNo cardKey : string) : Order.t :=
  Order.mk (Order.productId o) (Order.amount o) (Order.quantity o) "delivered"
           (Some (now env0)) (Some (now env0)) (Some tradeNo) (Some cardKey)
           (Order.currentPaymentId o).

Definition usedCard (id : Z) (productId cardKey : string) : Card.t :=
  Card.mk id productId cardKey (Some true) (Some (now env0)) None None.

End Ex.

(** ** The callback route ([GET]) *)

Module Route.

(** A JavaScript string, as its UTF-16 code units. *)
Abbreviation jsstring := (list N).

Definition units (s : string) : jsstring :=
  map (fun c => N.of_nat (nat_of_ascii c)) (String.list_ascii_of_string s).

(** The code units [String.prototype.trim] strips: ECMAScript's white space
    (tab, vertical tab, form feed, the space separators, the byte-order
    mark) and line terminators. *)
Definition isWhiteSpace (u : N) : bool :=
  existsb (N.eqb u)
          [9; 10; 11; 12; 13; 32; 160; 5760; 8232; 8233; 8239; 8287; 12288;
           65279]%N
  || ((8192 <=? u) && (u <=? 8202))%N.

Fixpoint trimStart (s : jsstring) : jsstring :=
  match s with
  | u :: rest => if isWhiteSpace u then trimStart rest else s
  | [] => []
  end.

Definition trimEnd (s : jsstring) : jsstring := rev (trimStart (rev s)).

Definition trim (s : jsstring) : jsstring := trimEnd (trimStart s).

Section Handler.

(** [URL] objects and the two-argument constructor [new URL(path, base)]
    belong to the platform. *)
Variable Url : Type.
Variable newURL : jsstring -> Url -> Url.

(** [NextResponse.redirect(location)] *)
Inductive Response := redirect (location : Url).

(** Lines 3-16; [url] is [new URL(request.url)], [id] the route parameter,
    [None] when it is not there. *)
Definition GET (id : option jsstring) (url : Url) : Response :=
  let orderId := trim (default [] id) in
  match orderId with
  | _ :: _ => redirect (newURL (units "/order/" ++ orderId) url)
  | [] => redirect (newURL (units "/") url)
  end.

End Handler.

End Route.

(** ** More about the store *)


(** The ids of the card updates among the statements of a call. *)
Definition updatedIds (steps : list Label) : list Z :=
  omap (fun l => match l with LUpdateCard id _ => Some id | _ => None end)
       steps.

(** A statement that writes the orders table. *)
Definition isOrderUpdate (l : Label) : bool :=
  match l with
  | LUpdateOrder _ _ => true
  | _ => false
  end.

(** What no statement of the routine changes: the products, the columns of
    the cards table, which orders there are and what they are for, which
    cards there are and their keys; and a used card stays used. *)
Record Kept (db db' : Db) : Prop := mkKept {
  kept_products : products db' = products db;
  kept_reservedOrderId : has_reservedOrderId db' = has_reservedOrderId db;
  kept_reservedAt : has_reservedAt db' = has_reservedAt db;
  kept_orders : forall oid,
    match orders db !! oid, orders db' !! oid with
    | Some o, Some o' =>
        Order.productId o' = Order.productId o
        /\ Order.amount o' = Order.amount o
        /\ Order.quantity o' = Order.quantity o
    | None, None => True
    | _, _ => False
    end;
  kept_cards :
    Forall2 (fun c c' =>
               Card.id c' = Card.id c
               /\ Card.productId c' = Card.productId c
               /\ Card.cardKey c' = Card.cardKey c
               /\ (Card.isUsed c = Some true -> Card.isUsed c' = Some true))
            (cards db) (cards db')
}.

(** More stores and calls for worked examples. *)
Module Ex2.

(** An order that was refunded. *)
Definition o_refunded : Order.t := Ex.order "p1" "9.99" 1 "refunded".
Definition db_refunded : Db :=
  Ex.store [("o1", o_refunded)] [("p1", Ex.exhaustible)] [Ex.card 1 "p1" "K1"].

(** A pending order with nothing in stock, and the store once the order is
    paid and a unit has arrived. *)
Definition db_empty : Db :=
  Ex.store [("o1", Ex.o1)] [("p1", Ex.exhaustible)] [].
Definition o1_paid : Order.t :=
  Order.mk "p1" "9.99" (Some 1) "paid" (Some 1000000%Z) None (Some "T1") None
           (Some "pay-1").
Definition db_restocked : Db :=
  Ex.store [("o1", o1_paid)] [("p1", Ex.exhaustible)] [Ex.card 1 "p1" "K1"].


(** An order whose amount is not a numeral. *)
Definition o_free : Order.t := Ex.order "p1" "free" 1 "pending".
Definition db_free : Db :=
  Ex.store [("o1", o_free)] [("p1", Ex.exhaustible)] [Ex.card 1 "p1" "K1"].

(** An order with no quantity. *)
Definition o_noqty : Order.t :=
  Order.mk "p1" "9.99" None "pending" None None None None None.
Definition db_noqty : Db :=
  Ex.store [("o1", o_noqty)] [("p1", Ex.exhaustible)]
           [Ex.card 1 "p1" "K1"; Ex.card 2 "p1" "K2"].

Definition call_a : Call := mkCall Ex.env0 "a" 9.99%float "TA".
Definition call_b : Call := mkCall Ex.env0 "b" 9.99%float "TB".

(** [URL] objects as the constructor calls that make them; what the URL
    parser does with the strings is the platform's and is not modelled. *)
Inductive UrlCall :=
| URL1 (input : Route.jsstring)
| URL2 (input : Route.jsstring) (base : UrlCall).

(** [new URL(request.url)] of a callback request. *)
Definition requestUrl : UrlCall :=
  URL1 (Route.units "https://shop.example/callback/ord_123").

(** The order of [Ex.db_shared] once its shared key is delivered. *)
Definition o4_delivered : Order.t :=
  Order.mk "ps" "9.99" (Some 3) "delivered" (Some (now Ex.env0))
           (Some (now Ex.env0)) (Some "T1") (Some (join ["K1"; "K1"; "K1"]))
           None.

End Ex2.

(** ** Running programs *)

Lemma run_bind env {A B} (p : Prog A) (f : A -> Prog B) db :
  run env (bind p f) db =
  match run env p db with
  | (Ok a, db') => run env (f a) db'
  | (Raise e, db') => (Raise e, db')
  end.
Proof.
  revert db. induction p as [a|e|X c k IH]; intros db; simpl; try reflexivity.
  destruct (exec env c db) as [r db']. apply IH.
Qed.

Lemma run_await env {X} (c : Cmd X) db : run env (await c) db = exec env c db.
Proof.
  unfold await. simpl. destruct (exec env c db) as [[x|e] db']; reflexivity.
Qed.

Lemma trace_bind env {A B} (p : Prog A) (f : A -> Prog B) db :
  trace env (bind p f) db =
  trace env p db ++
  match run env p db with
  | (Ok a, db') => trace env (f a) db'
  | (Raise _, _) => []
  end.
Proof.
  revert db. induction p as [a|e|X c k IH]; intros db; simpl; try reflexivity.
  destruct (exec env c db) as [r db']. simpl. f_equal. apply IH.
Qed.

Lemma trace_await env {X} (c : Cmd X) db : trace env (await c) db = [label c].
Proof.
  unfold await. simpl. destruct (exec env c db) as [[x|e] db']; reflexivity.
Qed.

(** ** Comparisons of binary64 values *)

Lemma SFcompare_Lt_Gt f1 f2 :
  SFcompare f1 f2 = Some Lt -> SFcompare f2 f1 = Some Gt.
Proof.
  destruct f1 as [s1|s1| |s1 m1 e1], f2 as [s2|s2| |s2 m2 e2]; simpl;
    try destruct s1; try destruct s2; simpl; try congruence.
  all: rewrite (Z.compare_antisym e1 e2);
    destruct (e1 ?= e2)%Z; simpl; try congruence.
  all: change (PosDef.Pos.compare_cont Eq m2 m1) with (Pos.compare m2 m1);
    change (PosDef.Pos.compare_cont Eq m1 m2) with (Pos.compare m1 m2);
    rewrite (Pos.compare_antisym m1 m2);
    destruct (Pos.compare m1 m2); simpl; congruence.
Qed.

(** [x <= y] excludes [y < x], NaN included. *)
Lemma leb_not_ltb (x y : float) :
  PrimFloat.leb x y = true -> PrimFloat.ltb y x = false.
Proof.
  rewrite FloatAxioms.leb_spec, FloatAxioms.ltb_spec. unfold SFleb, SFltb.
  destruct (SFcompare (Prim2SF y) (Prim2SF x)) as [[| |]|] eqn:E; try reflexivity.
  rewrite (SFcompare_Lt_Gt _ _ E). discriminate.
Qed.

(** ** The store after a statement *)

Lemma withCards_same db : withCards db (cards db) = db.
Proof. destruct db; reflexivity. Qed.

Lemma run_claimReservedLoop env rows acc db :
  has_reservedOrderId db = true -> has_reservedAt db = true ->
  run env (claimReservedLoop rows acc) db
  = (Ok (acc ++ map Row.cardKey rows),
     withCards db (markAll (now env) ClaimReserved rows (cards db))).
Proof.
  intros H1 H2. revert acc db H1 H2.
  induction rows as [|r rows IH]; intros acc db H1 H2; simpl.
  - rewrite app_nil_r, withCards_same. reflexivity.
  - rewrite H1, H2. simpl. rewrite IH by reflexivity || assumption.
    rewrite <- app_assoc. reflexivity.
Qed.

Lemma run_claimReservedLoop_nocol env rows acc db :
  has_reservedOrderId db && has_reservedAt db = false ->
  run env (claimReservedLoop rows acc) db = (Ok acc, db).
Proof.
  intros H. destruct rows as [|r rows]; simpl; [reflexivity|].
  destruct (has_reservedOrderId db); simpl in *; [|reflexivity].
  rewrite H. reflexivity.
Qed.

Lemma run_claimReserved env orderId quantity db :
  run env (claimReserved orderId quantity) db
  = (Ok (map Row.cardKey (reservedRows orderId quantity db)),
     withCards db (markAll (now env) ClaimReserved
                           (reservedRows orderId quantity db) (cards db))).
Proof.
  unfold claimReserved, reservedRows. simpl.
  destruct (has_reservedOrderId db) eqn:H1; simpl.
  - destruct (has_reservedAt db) eqn:H2.
    + rewrite run_claimReservedLoop by assumption. reflexivity.
    + rewrite run_claimReservedLoop_nocol by (rewrite H1, H2; reflexivity).
      simpl. rewrite withCards_same. reflexivity.
  - rewrite withCards_same. reflexivity.
Qed.

Lemma run_claimAvailableLoop env rows acc db :
  run env (claimAvailableLoop rows acc) db
  = (Ok (acc ++ map Row.cardKey rows),
     withCards db (markAll (now env) ClaimAvailable rows (cards db))).
Proof.
  revert acc db. induction rows as [|r rows IH]; intros acc db; simpl.
  - rewrite app_nil_r, withCards_same. reflexivity.
  - rewrite IH. simpl. rewrite <- app_assoc. reflexivity.
Qed.

Lemma run_claimAvailable env productId oneMinuteAgo quantity cardKeys db :
  run env (claimAvailable productId oneMinuteAgo quantity cardKeys) db
  = if (length cardKeys <? quantity) && negb (has_reservedAt db)
    then (Raise (NoSuchColumn "reserved_at"), db)
    else
      let rows := availableRows productId oneMinuteAgo quantity
                                (length cardKeys) (cards db) in
      (Ok (cardKeys ++ map Row.cardKey rows),
       withCards db (markAll (now env) ClaimAvailable rows (cards db))).
Proof.
  unfold claimAvailable, availableRows.
  destruct (length cardKeys <? quantity).
  - rewrite run_bind, run_await. simpl.
    destruct (has_reservedAt db); simpl; [|reflexivity].
    apply run_claimAvailableLoop.
  - simpl. rewrite app_nil_r, withCards_same. reflexivity.
Qed.

Lemma run_settle env orderId tradeNo cardKeys db :
  run env (settle orderId tradeNo cardKeys) db
  = (Ok processed_, patchOrder env orderId (settlePatch tradeNo cardKeys) db).
Proof.
  unfold settle, settlePatch.
  destruct (0 <? length cardKeys); rewrite run_bind, run_await; reflexivity.
Qed.

Lemma run_fulfillExhaustible env orderId tradeNo order db :
  run env (fulfillExhaustible orderId tradeNo order) db
  = if (length (phase1Rows orderId order db)
        <? quantityOr1 (Order.quantity order))
       && negb (has_reservedAt db)
    then (Raise (NoSuchColumn "reserved_at"),
          withCards db (phase1Cards env orderId order db))
    else (Ok processed_,
          patchOrder env orderId
            (settlePatch tradeNo (claimedKeys env orderId order db))
            (withCards db (phase2Cards env orderId order db))).
Proof.
  unfold fulfillExhaustible.
  rewrite run_bind, run_await. simpl exec. cbv iota.
  rewrite run_bind, run_claimReserved.
  rewrite run_bind, run_claimAvailable.
  rewrite length_map. fold (phase1Rows orderId order db).
  fold (phase1Cards env orderId order db). simpl has_reservedAt.
  destruct ((length _ <? _) && negb _); [reflexivity|].
  cbv beta iota zeta. rewrite run_settle. simpl cards.
  fold (phase2Rows env orderId order db). rewrite <- map_app.
  reflexivity.
Qed.

Lemma run_fulfillShared env orderId tradeNo order db :
  run env (fulfillShared orderId tradeNo order) db
  = if sharedOverflow env order db
    then (Raise InvalidArrayLength, db)
    else (Ok processed_,
          patchOrder env orderId
            (sharedPatch tradeNo order (sharedRow env order db)) db).
Proof.
  unfold fulfillShared, sharedOverflow.
  rewrite run_bind, run_await. simpl exec. cbv iota.
  fold (sharedRow env order db).
  destruct (sharedRow env order db) as [|card rest].
  - rewrite run_bind, run_await. reflexivity.
  - cbv zeta. destruct (arrayTooLong _); [reflexivity|].
    rewrite run_bind, run_await. reflexivity.
Qed.


Lemma sharedOverflow_small env order db :
  (Z.of_nat (quantityOr1 (Order.quantity order)) < 4294967296)%Z ->
  sharedOverflow env order db = false.
Proof.
  intros H. unfold sharedOverflow, arrayTooLong.
  destruct (sharedRow env order db); [reflexivity|]. apply Z.leb_gt, H.
Qed.

Lemma pickOne_nil {A} draw : pickOne draw (@nil A) = [].
Proof. unfold pickOne. rewrite drop_nil. reflexivity. Qed.

Lemma pickOne_cons {A} draw (l : list A) :
  l <> [] -> exists x, pickOne draw l = [x] /\ x ∈ l.
Proof.
  intros Hl. unfold pickOne.
  assert (Hlt : draw mod length l < length l).
  { apply Nat.mod_upper_bound. destruct l; [congruence|simpl; lia]. }
  destruct (lookup_lt_is_Some_2 l _ Hlt) as [x Hx].
  exists x. split.
  - rewrite (drop_S _ _ _ Hx). reflexivity.
  - eapply list_elem_of_lookup_2; eassumption.
Qed.

Lemma lookup_setOrder db orderId o :
  orders (setOrder db orderId o) !! orderId = Some o.
Proof. unfold setOrder. simpl. apply lookup_insert_eq. Qed.

Lemma lookup_patchOrder_ne env orderId p db other :
  other <> orderId ->
  orders (patchOrder env orderId p db) !! other = orders db !! other.
Proof.
  intros Hne. unfold patchOrder. simpl. apply lookup_alter_ne. congruence.
Qed.

Lemma patchOrder_found env orderId p db order :
  orders db !! orderId = Some order ->
  patchOrder env orderId p db
  = setOrder db orderId (applyOrderPatch (now env) p order).
Proof.
  intros Hfound. unfold patchOrder, setOrder. f_equal.
  apply map_eq. intros j. rewrite lookup_alter, lookup_insert.
  destruct (decide (orderId = j)) as [<-|]; [rewrite Hfound|]; reflexivity.
Qed.

Lemma pendingOrCancelled_spec s :
  pendingOrCancelled s = true <-> s = "pending" \/ s = "cancelled".
Proof.
  unfold pendingOrCancelled. rewrite orb_true_iff, !String.eqb_eq. reflexivity.
Qed.

Lemma pendingOrCancelled_terminal s :
  s = "paid" \/ s = "delivered" -> pendingOrCancelled s = false.
Proof. intros [->| ->]; reflexivity. Qed.

(** *** The [where] clauses, as propositions *)

Lemma unused_spec c :
  unused c = true <-> Card.isUsed c = None \/ Card.isUsed c = Some false.
Proof.
  unfold unused. destruct (Card.isUsed c) as [[|]|]; split; intros H;
    try reflexivity; try discriminate; auto; destruct H; discriminate.
Qed.

Lemma sharedEligible_spec pid c :
  sharedEligible pid c = true
  <-> Card.productId c = pid
      /\ (Card.isUsed c = None \/ Card.isUsed c = Some false).
Proof.
  unfold sharedEligible. rewrite andb_true_iff, String.eqb_eq, unused_spec.
  reflexivity.
Qed.

Lemma reservedFor_spec oid c :
  reservedFor oid c = true
  <-> Card.reservedOrderId c = Some oid
      /\ (Card.isUsed c = None \/ Card.isUsed c = Some false).
Proof.
  unfold reservedFor. rewrite andb_true_iff, unused_spec.
  destruct (Card.reservedOrderId c) as [r|].
  - rewrite String.eqb_eq. split; intros [H ?]; split; congruence.
  - split; intros [H ?]; discriminate.
Qed.



(** *** The cards after a claim loop *)

Lemma applyCardPatch_id t p c : Card.id (applyCardPatch t p c) = Card.id c.
Proof. destruct p; reflexivity. Qed.

Lemma applyCardPatch_idem t p c :
  applyCardPatch t p (applyCardPatch t p c) = applyCardPatch t p c.
Proof. destruct p; reflexivity. Qed.

Lemma applyCardPatch_used t p c : unused (applyCardPatch t p c) = false.
Proof. destruct p; reflexivity. Qed.

Lemma markAll_map t p rows cs :
  markAll t p rows cs
  = map (fun c => if claimedBy rows c then applyCardPatch t p c else c) cs.
Proof.
  unfold markAll. revert cs. induction rows as [|r rows IH]; intros cs; simpl.
  - symmetry. apply map_id.
  - rewrite IH. unfold updateCards. rewrite map_map.
    apply map_ext. intros c. unfold claimedBy. simpl.
    destruct (Card.id c =? Row.id r)%Z eqn:E; simpl.
    + rewrite applyCardPatch_id, applyCardPatch_idem.
      destruct (existsb _ rows); reflexivity.
    + reflexivity.
Qed.

Lemma claimedBy_In rows c :
  claimedBy rows c = true <-> exists r, In r rows /\ Row.id r = Card.id c.
Proof.
  unfold claimedBy. rewrite existsb_exists. split; intros [r [Hin H]]; exists r.
  - apply Z.eqb_eq in H. auto.
  - split; [assumption|]. apply Z.eqb_eq. auto.
Qed.

Lemma claimedBy_ext rows c c' :
  Card.id c = Card.id c' -> claimedBy rows c = claimedBy rows c'.
Proof. intros H. unfold claimedBy. rewrite H. reflexivity. Qed.

Lemma claimedBy_app rows rows' c :
  claimedBy (rows ++ rows') c = claimedBy rows c || claimedBy rows' c.
Proof. apply existsb_app. Qed.

(** A card the loop updates ends up used; the others are left alone. *)
Lemma markAll_In t p rows cs c' :
  In c' (markAll t p rows cs) ->
  exists c, In c cs /\ Card.id c' = Card.id c
            /\ c' = (if claimedBy rows c then applyCardPatch t p c else c).
Proof.
  rewrite markAll_map, in_map_iff. intros [c [<- Hin]]. exists c.
  repeat split; [assumption|].
  destruct (claimedBy rows c); [apply applyCardPatch_id|reflexivity].
Qed.

(** *** The rows a query returns *)

Lemma In_selected (P : Card.t -> bool) n cs r :
  In r (take n (map toRow (List.filter P cs))) ->
  exists c, In c cs /\ r = toRow c /\ P c = true.
Proof.
  intros Hin. apply list_elem_of_In, subseteq_take, list_elem_of_In in Hin.
  apply in_map_iff in Hin. destruct Hin as [c [<- Hc]].
  apply filter_In in Hc. exists c. tauto.
Qed.

Lemma length_reservedRows orderId quantity db :
  length (reservedRows orderId quantity db) <= quantity.
Proof.
  unfold reservedRows. destruct (_ && _); simpl; [|lia].
  rewrite length_take. lia.
Qed.

Lemma length_availableRows productId oneMinuteAgo quantity already cs :
  length (availableRows productId oneMinuteAgo quantity already cs)
  <= quantity - already.
Proof.
  unfold availableRows. destruct (already <? quantity); simpl; [|lia].
  rewrite length_take. lia.
Qed.

Lemma In_reservedRows orderId quantity db r :
  In r (reservedRows orderId quantity db) ->
  exists c, In c (cards db) /\ r = toRow c /\ reservedFor orderId c = true.
Proof.
  unfold reservedRows. destruct (_ && _); [apply In_selected|intros []].
Qed.

Lemma In_availableRows productId oneMinuteAgo quantity already cs r :
  In r (availableRows productId oneMinuteAgo quantity already cs) ->
  exists c, In c cs /\ r = toRow c
            /\ available productId oneMinuteAgo c = true.
Proof.
  unfold availableRows. destruct (already <? quantity);
    [apply In_selected|intros []].
Qed.

Lemma reservedFor_unused oid c : reservedFor oid c = true -> unused c = true.
Proof. unfold reservedFor. rewrite andb_true_iff. tauto. Qed.

Lemma available_unused pid t c : available pid t c = true -> unused c = true.
Proof. unfold available. rewrite !andb_true_iff. tauto. Qed.

Section ClaimedFacts.

Variables (env : Env) (orderId : string) (order : Order.t) (db : Db).

Lemma length_claimedKeys :
  length (claimedKeys env orderId order db)
  <= quantityOr1 (Order.quantity order).
Proof.
  unfold claimedKeys, claimedRows. rewrite length_map, length_app.
  pose proof (length_reservedRows orderId (quantityOr1 (Order.quantity order)) db).
  pose proof (length_availableRows (Order.productId order) (now env - 60000)
                (quantityOr1 (Order.quantity order))
                (length (phase1Rows orderId order db))
                (phase1Cards env orderId order db)).
  unfold phase2Rows, phase1Rows in *. lia.
Qed.

(** A card still unused after phase 1 is a card of the store as it was. *)
Lemma phase1Cards_unused c :
  In c (phase1Cards env orderId order db) -> unused c = true ->
  In c (cards db).
Proof.
  unfold phase1Cards. intros Hin Hun.
  apply markAll_In in Hin. destruct Hin as [c0 [Hc0 [_ ->]]].
  destruct (claimedBy _ c0); [|assumption].
  rewrite applyCardPatch_used in Hun. discriminate.
Qed.

(** Every claimed row is the row of a card that was unused. *)
Lemma claimedRows_unused r :
  In r (claimedRows env orderId order db) ->
  exists c, In c (cards db) /\ r = toRow c /\ unused c = true.
Proof.
  unfold claimedRows. rewrite in_app_iff. intros [H|H].
  - apply In_reservedRows in H. destruct H as [c [Hc [-> Hr]]].
    exists c. eauto using reservedFor_unused.
  - apply In_availableRows in H. destruct H as [c [Hc [-> Ha]]].
    apply available_unused in Ha.
    exists c. eauto using phase1Cards_unused.
Qed.

(** Every card with the id of a claimed row is used afterwards. *)
Lemma claimed_cards_used c :
  In c (phase2Cards env orderId order db) ->
  claimedBy (claimedRows env orderId order db) c = true ->
  Card.isUsed c = Some true.
Proof.
  unfold phase2Cards, claimedRows. intros Hin Hcl.
  apply markAll_In in Hin. destruct Hin as [c1 [Hc1 [Hid1 ->]]].
  destruct (claimedBy (phase2Rows _ _ _ _) c1) eqn:H2.
  { destruct c1; reflexivity. }
  unfold phase1Cards in Hc1.
  apply markAll_In in Hc1. destruct Hc1 as [c0 [Hc0 [Hid0 ->]]].
  rewrite claimedBy_app, orb_true_iff in Hcl. destruct Hcl as [Hcl|Hcl].
  - destruct (claimedBy (phase1Rows _ _ _) c0) eqn:H1.
    { destruct c0; reflexivity. }
    rewrite H1 in Hcl. discriminate.
  - rewrite H2 in Hcl. discriminate.
Qed.

(** The cards no claimed row names are as they were. *)
Lemma unclaimed_cards_kept :
  phase2Cards env orderId order db
  = map (fun c => if claimedBy (phase1Rows orderId order db) c
                  then applyCardPatch (now env) ClaimReserved c
                  else if claimedBy (phase2Rows env orderId order db) c
                  then applyCardPatch (now env) ClaimAvailable c
                  else c) (cards db).
Proof.
  unfold phase2Cards, phase1Cards. rewrite !markAll_map, map_map.
  apply map_ext. intros c.
  destruct (claimedBy (phase1Rows _ _ _) c) eqn:H1.
  - rewrite (claimedBy_ext _ _ c) by apply applyCardPatch_id.
    destruct (claimedBy (phase2Rows _ _ _ _) c); reflexivity.
  - reflexivity.
Qed.

End ClaimedFacts.

(** *** The statements a call issues *)

Lemma trace_claimReservedLoop env rows acc db :
  has_reservedOrderId db = true -> has_reservedAt db = true ->
  trace env (claimReservedLoop rows acc) db
  = map (fun r => LUpdateCard (Row.id r) ClaimReserved) rows.
Proof.
  intros H1 H2. revert acc db H1 H2.
  induction rows as [|r rows IH]; intros acc db H1 H2; simpl; [reflexivity|].
  rewrite H1, H2. simpl. f_equal. apply IH; assumption.
Qed.

Lemma trace_claimReserved env orderId quantity db :
  has_reservedAt db = true ->
  trace env (claimReserved orderId quantity) db
  = LSelectReservedCards orderId quantity
    :: map (fun r => LUpdateCard (Row.id r) ClaimReserved)
           (reservedRows orderId quantity db).
Proof.
  intros H2. unfold claimReserved, reservedRows. simpl. rewrite H2.
  destruct (has_reservedOrderId db) eqn:H1; simpl; [|reflexivity].
  f_equal. apply trace_claimReservedLoop; assumption.
Qed.

Lemma trace_claimAvailableLoop env rows acc db :
  trace env (claimAvailableLoop rows acc) db
  = map (fun r => LUpdateCard (Row.id r) ClaimAvailable) rows.
Proof.
  revert acc db. induction rows as [|r rows IH]; intros acc db; simpl;
    [reflexivity|].
  f_equal. apply IH.
Qed.

Lemma trace_claimAvailable env productId oneMinuteAgo quantity cardKeys db :
  has_reservedAt db = true ->
  trace env (claimAvailable productId oneMinuteAgo quantity cardKeys) db
  = if length cardKeys <? quantity
    then LSelectAvailableCards productId oneMinuteAgo
                               (quantity - length cardKeys)
         :: map (fun r => LUpdateCard (Row.id r) ClaimAvailable)
                (availableRows productId oneMinuteAgo quantity
                               (length cardKeys) (cards db))
    else [].
Proof.
  intros H2. unfold claimAvailable, availableRows.
  destruct (length cardKeys <? quantity); [|reflexivity].
  rewrite trace_bind, trace_await, run_await. simpl. rewrite H2. simpl.
  f_equal. apply trace_claimAvailableLoop.
Qed.

Lemma trace_settle env orderId tradeNo cardKeys db :
  trace env (settle orderId tradeNo cardKeys) db
  = [LUpdateOrder orderId (settlePatch tradeNo cardKeys)].
Proof.
  unfold settle, settlePatch.
  destruct (0 <? length cardKeys);
    rewrite trace_bind, trace_await, run_await; reflexivity.
Qed.

Lemma trace_fulfillExhaustible env orderId tradeNo order db :
  has_reservedAt db = true ->
  let quantity := quantityOr1 (Order.quantity order) in
  let rows1 := phase1Rows orderId order db in
  trace env (fulfillExhaustible orderId tradeNo order) db
  = LDateNow :: LSelectReservedCards orderId quantity
    :: map (fun r => LUpdateCard (Row.id r) ClaimReserved) rows1
    ++ (if length rows1 <? quantity
        then LSelectAvailableCards (Order.productId order) (now env - 60000)
                                   (quantity - length rows1)
             :: map (fun r => LUpdateCard (Row.id r) ClaimAvailable)
                    (phase2Rows env orderId order db)
        else [])
    ++ [LUpdateOrder orderId
          (settlePatch tradeNo (claimedKeys env orderId order db))].
Proof.
  intros H2 quantity rows1. unfold fulfillExhaustible.
  rewrite trace_bind, trace_await, run_await. simpl exec. cbv iota.
  simpl label. rewrite <- app_comm_cons, app_nil_l. f_equal.
  rewrite trace_bind, run_claimReserved, trace_claimReserved by assumption.
  rewrite <- app_comm_cons. f_equal. fold quantity. f_equal.
  rewrite trace_bind, run_claimAvailable, trace_claimAvailable by exact H2.
  rewrite length_map. simpl has_reservedAt. rewrite H2, andb_false_r.
  cbv beta iota zeta. rewrite trace_settle. simpl cards.
  rewrite <- map_app. reflexivity.
Qed.

(** *** Joined keys *)

Lemma join_cons k keys :
  join (k :: keys)
  = match keys with
    | [] => k
    | _ :: _ => String.append k (String.append nl (join keys))
    end.
Proof. reflexivity. Qed.

Lemma join_nonempty keys :
  keys <> [] ->
  (forall k, In k keys -> k <> "") \/ 2 <= length keys ->
  join keys <> "".
Proof.
  destruct keys as [|k [|k' keys]]; [congruence| |]; intros _ H.
  - rewrite join_cons. destruct H as [H|H]; [|simpl in H; lia].
    apply H. left. reflexivity.
  - rewrite join_cons. destruct k; discriminate.
Qed.

(** *** One call on its own, as a schedule *)

Lemma runSchedule_alone env {A} (p : Prog A) db :
  runSchedule env (replicate (length (trace env p db)) 0) [p] db
  = ([finished (fst (run env p db))], snd (run env p db)).
Proof.
  revert db. induction p as [a|e|X c k IH]; intros db; try reflexivity.
  simpl. destruct (exec env c db) as [r db'] eqn:E. simpl. rewrite E.
  apply IH.
Qed.

Section Properties.

Context (parseFloat : string -> float) (isPaymentOrder : string -> bool).

Abbreviation fulfill := (processOrderFulfillment parseFloat isPaymentOrder).

(** The whole call, in closed form. *)
Lemma run_fulfill env db orderId paidAmount tradeNo :
  run env (fulfill orderId paidAmount tradeNo) db =
  match orders db !! orderId with
  | None => (Raise (OrderNotFound orderId), db)
  | Some order =>
      let orderMoney := parseFloat (Order.amount order) in
      if amountMismatch paidAmount orderMoney
      then (Raise (AmountMismatch orderMoney paidAmount), db)
      else if isPaymentOrder (Order.productId order) then
        if pendingOrCancelled (Order.status order)
        then (Ok processed_, patchOrder env orderId (SetPaid tradeNo) db)
        else (Ok processed_, db)
      else if pendingOrCancelled (Order.status order) then
        if isSharedProduct (products db !! Order.productId order)
        then if sharedOverflow env order db
             then (Raise InvalidArrayLength, db)
             else (Ok processed_,
                   patchOrder env orderId
                     (sharedPatch tradeNo order (sharedRow env order db)) db)
        else if (length (phase1Rows orderId order db)
                 <? quantityOr1 (Order.quantity order))
                && negb (has_reservedAt db)
        then (Raise (NoSuchColumn "reserved_at"),
              withCards db (phase1Cards env orderId order db))
        else (Ok processed_,
              patchOrder env orderId
                (settlePatch tradeNo (claimedKeys env orderId order db))
                (withCards db (phase2Cards env orderId order db)))
      else (Ok already_processed_, db)
  end.
Proof.
  unfold processOrderFulfillment.
  rewrite run_bind, run_await. simpl exec. cbv iota.
  destruct (orders db !! orderId) as [order|]; [|reflexivity].
  cbv zeta. destruct (amountMismatch _ _); [reflexivity|].
  destruct (isPaymentOrder _).
  - destruct (pendingOrCancelled _); [|reflexivity].
    rewrite run_bind, run_await. reflexivity.
  - destruct (pendingOrCancelled _); [|reflexivity].
    rewrite run_bind, run_await. simpl exec. cbv iota.
    destruct (isSharedProduct _).
    + apply run_fulfillShared.
    + apply run_fulfillExhaustible.
Qed.

(** The whole list of statements a call issues. *)
Lemma trace_fulfill env db orderId paidAmount tradeNo :
  trace env (fulfill orderId paidAmount tradeNo) db
  = LFindOrder orderId ::
    match orders db !! orderId with
    | None => []
    | Some order =>
        if amountMismatch paidAmount (parseFloat (Order.amount order)) then []
        else if isPaymentOrder (Order.productId order) then
          if pendingOrCancelled (Order.status order)
          then [LUpdateOrder orderId (SetPaid tradeNo)] else []
        else if pendingOrCancelled (Order.status order) then
          LFindProduct (Order.productId order) ::
          if isSharedProduct (products db !! Order.productId order)
          then LSelectSharedCard (Order.productId order) ::
               if sharedOverflow env order db then []
               else [LUpdateOrder orderId
                       (sharedPatch tradeNo order (sharedRow env order db))]
          else trace env (fulfillExhaustible orderId tradeNo order) db
        else []
    end.
Proof.
  unfold processOrderFulfillment.
  rewrite trace_bind, trace_await, run_await. simpl exec. cbv iota.
  simpl label. rewrite <- app_comm_cons, app_nil_l. f_equal.
  destruct (orders db !! orderId) as [order|]; [|reflexivity].
  cbv zeta. destruct (amountMismatch _ _); [reflexivity|].
  destruct (isPaymentOrder _).
  { destruct (pendingOrCancelled _); [|reflexivity].
    rewrite trace_bind, trace_await, run_await. reflexivity. }
  destruct (pendingOrCancelled _); [|reflexivity].
  rewrite trace_bind, trace_await, run_await. simpl exec. cbv iota.
  simpl label. rewrite <- app_comm_cons, app_nil_l. f_equal.
  destruct (isSharedProduct _); [|reflexivity].
  unfold fulfillShared.
  rewrite trace_bind, trace_await, run_await. simpl exec. cbv iota.
  simpl label. rewrite <- app_comm_cons, app_nil_l. f_equal.
  unfold sharedOverflow. fold (sharedRow env order db).
  destruct (sharedRow env order db) as [|card rest].
  - rewrite trace_bind, trace_await, run_await. reflexivity.
  - cbv zeta. destruct (arrayTooLong _); [reflexivity|].
    rewrite trace_bind, trace_await, run_await. reflexivity.
Qed.

(** C2. A call whose paid amount differs from the order's amount by more
    than 0.01 fails with the amount-mismatch error and leaves the whole
    store, orders and cards, as it was; a call whose difference is at most
    0.01 does not fail with that error. *)
Theorem amount_guard env db orderId paidAmount tradeNo order :
  orders db !! orderId = Some order ->
  let orderMoney := parseFloat (Order.amount order) in
  let diff := PrimFloat.abs (PrimFloat.sub paidAmount orderMoney) in
  (PrimFloat.ltb 0.01%float diff = true ->
   run env (fulfill orderId paidAmount tradeNo) db
   = (Raise (AmountMismatch orderMoney paidAmount), db))
  /\ (PrimFloat.leb diff 0.01%float = true ->
      forall m p, fst (run env (fulfill orderId paidAmount tradeNo) db)
                  <> Raise (AmountMismatch m p)).
Proof.
  intros Hfound orderMoney diff. rewrite run_fulfill, Hfound.
  cbv zeta. fold orderMoney. unfold amountMismatch. fold diff. split.
  - intros ->. reflexivity.
  - intros Hle m p. rewrite (leb_not_ltb _ _ Hle).
    repeat match goal with
           | |- context [if ?b then _ else _] => destruct b
           end; simpl; discriminate.
Qed.

(** C10. The amount check comes first: whatever the status of the order,
    paid and delivered included, a call whose paid amount is off by more
    than 0.01 fails with the amount-mismatch error, store untouched, and
    does not answer [already_processed]. *)
Theorem amount_check_precedes_status_check env db orderId paidAmount tradeNo
    order :
  orders db !! orderId = Some order ->
  amountMismatch paidAmount (parseFloat (Order.amount order)) = true ->
  run env (fulfill orderId paidAmount tradeNo) db
  = (Raise (AmountMismatch (parseFloat (Order.amount order)) paidAmount), db)
  /\ fst (run env (fulfill orderId paidAmount tradeNo) db)
     <> Ok already_processed_.
Proof.
  intros Hfound Hmis. rewrite run_fulfill, Hfound. cbv zeta. rewrite Hmis.
  split; [reflexivity|discriminate].
Qed.

(** The statements of a payment-only call. *)
Lemma trace_fulfill_payment env db orderId paidAmount tradeNo order :
  orders db !! orderId = Some order ->
  amountMismatch paidAmount (parseFloat (Order.amount order)) = false ->
  isPaymentOrder (Order.productId order) = true ->
  trace env (fulfill orderId paidAmount tradeNo) db
  = LFindOrder orderId ::
    if pendingOrCancelled (Order.status order)
    then [LUpdateOrder orderId (SetPaid tradeNo)] else [].
Proof.
  intros Hfound Hok Hpay. rewrite trace_fulfill, Hfound, Hok, Hpay.
  reflexivity.
Qed.

(** C9. A call with a matching amount on a payment-only order answers
    [processed]; from pending or cancelled the order becomes paid, with
    [paidAt] and [tradeNo] set and nothing else changed: the order read
    back from the store after the call is the paid row, written by the one
    update that follows the lookup; from any other status the store is
    left as it was and the lookup is the only statement; no statement on
    the cards table is issued, and cards, products and the other orders
    are as before. *)
Theorem payment_only_order env db orderId paidAmount tradeNo order :
  orders db !! orderId = Some order ->
  amountMismatch paidAmount (parseFloat (Order.amount order)) = false ->
  isPaymentOrder (Order.productId order) = true ->
  let out := run env (fulfill orderId paidAmount tradeNo) db in
  let steps := trace env (fulfill orderId paidAmount tradeNo) db in
  let paid :=
    Order.mk (Order.productId order) (Order.amount order)
             (Order.quantity order) "paid" (Some (now env))
             (Order.deliveredAt order) (Some tradeNo)
             (Order.cardKey order) (Order.currentPaymentId order) in
  fst out = Ok processed_
  /\ (Order.status order = "pending" \/ Order.status order = "cancelled" ->
      snd out = setOrder db orderId paid
      /\ orders (snd out) !! orderId = Some paid
      /\ steps = [LFindOrder orderId; LUpdateOrder orderId (SetPaid tradeNo)])
  /\ (~ (Order.status order = "pending" \/ Order.status order = "cancelled") ->
      snd out = db /\ steps = [LFindOrder orderId])
  /\ forallb (fun l => negb (onCards l)) steps = true
  /\ cards (snd out) = cards db
  /\ products (snd out) = products db
  /\ (forall other, other <> orderId ->
                    orders (snd out) !! other = orders db !! other).
Proof.
  intros Hfound Hok Hpay out steps paid. subst out steps.
  rewrite (trace_fulfill_payment _ _ _ _ _ _ Hfound Hok Hpay).
  rewrite run_fulfill, Hfound. cbv zeta. rewrite Hok, Hpay.
  destruct (pendingOrCancelled (Order.status order)) eqn:Hst.
  - simpl fst. simpl snd.
    split; [reflexivity|]. split.
    { intros _. rewrite (patchOrder_found _ _ _ _ _ Hfound).
      split; [reflexivity|]. split; [|reflexivity].
      apply lookup_setOrder. }
    split.
    { intros Hn. apply pendingOrCancelled_spec in Hst. contradiction. }
    split; [reflexivity|]. split; [reflexivity|]. split; [reflexivity|].
    intros other Hne. apply lookup_patchOrder_ne, Hne.
  - simpl fst. simpl snd.
    split; [reflexivity|]. split.
    { intros Hp. apply pendingOrCancelled_spec in Hp. congruence. }
    split; [intros _; split; reflexivity|].
    split; [reflexivity|]. split; [reflexivity|]. split; [reflexivity|].
    reflexivity.
Qed.

(** C3, as the code has it.  A call on an order whose status is paid or
    delivered changes nothing in the store, whatever it answers; when the
    amount matches it answers [already_processed] for an order that is
    not payment-only, and [processed] for a payment-only order. *)
Theorem terminal_status_no_mutation env db orderId paidAmount tradeNo order :
  orders db !! orderId = Some order ->
  Order.status order = "paid" \/ Order.status order = "delivered" ->
  let out := run env (fulfill orderId paidAmount tradeNo) db in
  snd out = db
  /\ (amountMismatch paidAmount (parseFloat (Order.amount order)) = false ->
      fst out = Ok (if isPaymentOrder (Order.productId order)
                    then processed_ else already_processed_)).
Proof.
  intros Hfound Hst out. subst out.
  rewrite run_fulfill, Hfound. cbv zeta.
  rewrite (pendingOrCancelled_terminal _ Hst).
  destruct (amountMismatch _ _); [split; [reflexivity|discriminate]|].
  destruct (isPaymentOrder _); split; reflexivity.
Qed.

(** C4, as the code has it.  A call on a pending or cancelled order of a
    shared product that has an unused unit (flag unset or false), the
    order's quantity being below 2^32, reads one such unit; the order read
    back from the store after the call is delivered, its [cardKey] is the
    unit's key repeated [quantity] times (once for a quantity unset or 0)
    with a newline between the copies, its [currentPaymentId] is null and
    its trade number is the call's; the call answers [processed], and every
    card, the one it read included, every product and every other order is
    as it was. *)
Theorem shared_product_delivery env db orderId paidAmount tradeNo order product :
  orders db !! orderId = Some order ->
  amountMismatch paidAmount (parseFloat (Order.amount order)) = false ->
  isPaymentOrder (Order.productId order) = false ->
  Order.status order = "pending" \/ Order.status order = "cancelled" ->
  products db !! Order.productId order = Some product ->
  Product.isShared product = Some true ->
  (exists c, In c (cards db) /\ Card.productId c = Order.productId order
             /\ (Card.isUsed c = None \/ Card.isUsed c = Some false)) ->
  (forall n, Order.quantity order = Some n -> (Z.of_nat n < 4294967296)%Z) ->
  let out := run env (fulfill orderId paidAmount tradeNo) db in
  exists unit order',
    In unit (cards db)
    /\ Card.productId unit = Order.productId order
    /\ (Card.isUsed unit = None \/ Card.isUsed unit = Some false)
    /\ fst out = Ok processed_
    /\ orders (snd out) !! orderId = Some order'
    /\ Order.status order' = "delivered"
    /\ Order.cardKey order'
       = Some (String.concat (String "010"%char EmptyString)
                 (replicate (quantityOr1 (Order.quantity order))
                            (Card.cardKey unit)))
    /\ Order.currentPaymentId order' = None
    /\ Order.tradeNo order' = Some tradeNo
    /\ Order.paidAt order' <> None
    /\ Order.deliveredAt order' <> None
    /\ Order.productId order' = Order.productId order
    /\ Order.amount order' = Order.amount order
    /\ Order.quantity order' = Order.quantity order
    /\ cards (snd out) = cards db
    /\ products (snd out) = products db
    /\ (forall other, other <> orderId ->
                      orders (snd out) !! other = orders db !! other)
    /\ (forall n, Order.quantity order = Some (S n) ->
                  quantityOr1 (Order.quantity order) = S n)
    /\ (Order.quantity order = None \/ Order.quantity order = Some 0 ->
        quantityOr1 (Order.quantity order) = 1).
Proof.
  intros Hfound Hok Hpay Hst Hprod Hshared [c0 [Hin0 Hel0]] Hsmall out.
  subst out. apply pendingOrCancelled_spec in Hst.
  rewrite run_fulfill, Hfound. cbv zeta. rewrite Hok, Hpay, Hst, Hprod.
  destruct product as [sh]. simpl in Hshared. subst sh. simpl isSharedProduct.
  cbv iota.
  rewrite sharedOverflow_small.
  2:{ destruct (Order.quantity order) as [[|n]|] eqn:Hq; simpl; try lia.
      apply (Hsmall (S n)). reflexivity. }
  destruct (pickOne_cons (rnd env)
              (map toRow (List.filter (sharedEligible (Order.productId order))
                                      (cards db)))) as [row [Hpick Hrow]].
  { intros Hnil. apply map_eq_nil in Hnil.
    assert (Hc0 : In c0 (List.filter (sharedEligible (Order.productId order))
                                     (cards db))).
    { apply filter_In. split; [assumption|]. apply sharedEligible_spec, Hel0. }
    rewrite Hnil in Hc0. destruct Hc0. }
  apply list_elem_of_In, in_map_iff in Hrow. destruct Hrow as [unit [<- Hunit]].
  apply filter_In in Hunit. destruct Hunit as [Hin Hel].
  apply sharedEligible_spec in Hel. destruct Hel as [Hpid Hun].
  unfold sharedRow. rewrite Hpick. simpl sharedPatch.
  simpl fst. simpl snd.
  eexists unit, _.
  split; [exact Hin|]. split; [exact Hpid|]. split; [exact Hun|].
  split; [reflexivity|].
  split.
  { rewrite (patchOrder_found _ _ _ _ _ Hfound). apply lookup_setOrder. }
  simpl.
  split; [reflexivity|]. split; [reflexivity|]. split; [reflexivity|].
  split; [reflexivity|]. split; [discriminate|]. split; [discriminate|].
  split; [reflexivity|]. split; [reflexivity|]. split; [reflexivity|].
  split; [reflexivity|]. split; [reflexivity|].
  split.
  { intros other Hne. apply lookup_alter_ne. congruence. }
  split.
  { intros n ->. reflexivity. }
  intros [-> | ->]; reflexivity.
Qed.




(** What a call can do to the orders table: nothing, or one update of its
    own order, which was pending or cancelled. *)
Lemma run_fulfill_orders env db orderId paidAmount tradeNo :
  let db' := snd (run env (fulfill orderId paidAmount tradeNo) db) in
  orders db' = orders db
  \/ exists order p,
       orders db !! orderId = Some order
       /\ pendingOrCancelled (Order.status order) = true
       /\ orders db' = <[orderId := applyOrderPatch (now env) p order]> (orders db)
       /\ (p = SetPaid tradeNo
           \/ exists keys,
                keys <> []
                /\ (p = SetDelivered tradeNo (join keys)
                    \/ p = SetDeliveredShared tradeNo (join keys))
                /\ forall k, In k keys ->
                     exists c, In c (cards db) /\ Card.cardKey c = k).
Proof.
  cbv zeta. rewrite run_fulfill.
  destruct (orders db !! orderId) as [order|] eqn:Hfound; [|left; reflexivity].
  cbv zeta. destruct (amountMismatch _ _); [left; reflexivity|].
  destruct (pendingOrCancelled (Order.status order)) eqn:Hst;
    [|destruct (isPaymentOrder _); left; reflexivity].
  destruct (isPaymentOrder _).
  { right. exists order, (SetPaid tradeNo).
    rewrite (patchOrder_found _ _ _ _ _ Hfound). auto. }
  destruct (isSharedProduct _).
  { destruct (sharedOverflow env order db); [left; reflexivity|].
    right. exists order, (sharedPatch tradeNo order (sharedRow env order db)).
    rewrite (patchOrder_found _ _ _ _ _ Hfound).
    repeat split; try assumption.
    unfold sharedRow.
    destruct (List.filter (sharedEligible (Order.productId order)) (cards db))
      as [|c0 cs0] eqn:Hf.
    - simpl map. rewrite pickOne_nil. left. reflexivity.
    - destruct (pickOne_cons (rnd env) (map toRow (c0 :: cs0)))
        as [row [-> Hrow]]; [discriminate|].
      right. exists (replicate (quantityOr1 (Order.quantity order))
                               (Row.cardKey row)).
      repeat split.
      + destruct (Order.quantity order) as [[|n]|]; discriminate.
      + right. reflexivity.
      + intros k Hk. apply list_elem_of_In, elem_of_replicate_inv in Hk.
        subst k. apply list_elem_of_In, in_map_iff in Hrow.
        destruct Hrow as [c [<- Hc]]. rewrite <- Hf in Hc.
        apply filter_In in Hc. exists c. tauto. }
  destruct (_ && _); [left; reflexivity|].
  right.
  exists order, (settlePatch tradeNo (claimedKeys env orderId order db)).
  assert (Hfound' : orders (withCards db (phase2Cards env orderId order db))
                    !! orderId = Some order) by exact Hfound.
  rewrite (patchOrder_found _ _ _ _ _ Hfound').
  repeat split; try assumption.
  unfold settlePatch.
  destruct (claimedKeys env orderId order db) as [|k0 ks0] eqn:Hk;
    [left; reflexivity|].
  right. exists (k0 :: ks0). repeat split; [discriminate|left; reflexivity|].
  intros k Hin. rewrite <- Hk in Hin. unfold claimedKeys in Hin.
  apply in_map_iff in Hin. destruct Hin as [r [<- Hr]].
  destruct (claimedRows_unused _ _ _ _ _ Hr) as [c [Hc [-> _]]].
  exists c. auto.
Qed.

(** A call leaves a delivered order as it is, whichever order it is for. *)
Lemma delivered_order_kept db call orderId order :
  orders db !! orderId = Some order ->
  Order.status order = "delivered" ->
  orders (runCall parseFloat isPaymentOrder db call) !! orderId = Some order.
Proof.
  intros Hfound Hst. unfold runCall.
  destruct (run_fulfill_orders (callEnv call) db (callOrderId call)
              (callPaidAmount call) (callTradeNo call))
    as [->|[o [p [Ho [Hpc [-> _]]]]]]; [assumption|].
  rewrite lookup_insert_ne; [assumption|].
  intros <-. rewrite Hfound in Ho. injection Ho as <-.
  rewrite Hst in Hpc. discriminate.
Qed.

(** C7, as the code has it.  Once a call has made an order delivered, its
    [cardKey] is set to the join of at least one key of the inventory, which
    is a non-empty string when those keys are non-empty or there are two or
    more of them; and no call made afterwards, for this order or another,
    changes any field of the order. *)
Theorem delivered_order_is_final env db orderId paidAmount tradeNo order order'
    calls :
  orders db !! orderId = Some order ->
  Order.status order <> "delivered" ->
  orders (snd (run env (fulfill orderId paidAmount tradeNo) db)) !! orderId
  = Some order' ->
  Order.status order' = "delivered" ->
  (exists keys,
     keys <> []
     /\ Order.cardKey order' = Some (join keys)
     /\ (forall k, In k keys -> exists c, In c (cards db) /\ Card.cardKey c = k)
     /\ ((forall k, In k keys -> k <> "") \/ 2 <= length keys ->
         join keys <> ""))
  /\ orders (runCalls parseFloat isPaymentOrder calls
               (snd (run env (fulfill orderId paidAmount tradeNo) db)))
     !! orderId = Some order'.
Proof.
  intros Hfound Hnot Hafter Hdelivered. split.
  - destruct (run_fulfill_orders env db orderId paidAmount tradeNo)
      as [Hsame|[o [p [Ho [_ [Hins Hp]]]]]].
    + rewrite Hsame, Hfound in Hafter. congruence.
    + rewrite Hins, lookup_insert_eq in Hafter. injection Hafter as <-.
      destruct Hp as [->|[keys [Hne [Hp Hkeys]]]]; [discriminate|].
      exists keys. repeat split; try assumption.
      * destruct Hp as [->| ->]; reflexivity.
      * apply join_nonempty, Hne.
  - generalize dependent (snd (run env (fulfill orderId paidAmount tradeNo) db)).
    induction calls as [|call calls IH]; intros db' Hafter; [exact Hafter|].
    apply IH. apply delivered_order_kept; assumption.
Qed.

(** With the reservation owner column missing and the reservation timestamp
    column there, phase 1 claims nothing, the call answers [processed], and
    the cards it claims are those of phase 2 alone. *)
Lemma reserved_lookup_failure_absorbed env db orderId paidAmount tradeNo order :
  orders db !! orderId = Some order ->
  amountMismatch paidAmount (parseFloat (Order.amount order)) = false ->
  isPaymentOrder (Order.productId order) = false ->
  Order.status order = "pending" \/ Order.status order = "cancelled" ->
  isSharedProduct (products db !! Order.productId order) = false ->
  has_reservedOrderId db = false ->
  has_reservedAt db = true ->
  fst (exec env (SelectReservedCards orderId
                   (quantityOr1 (Order.quantity order))) db)
  = Raise (NoSuchColumn "reserved_order_id")
  /\ phase1Rows orderId order db = []
  /\ fst (run env (fulfill orderId paidAmount tradeNo) db) = Ok processed_
  /\ cards (snd (run env (fulfill orderId paidAmount tradeNo) db))
     = markAll (now env) ClaimAvailable
         (take (quantityOr1 (Order.quantity order))
               (map toRow (List.filter (available (Order.productId order)
                                                  (now env - 60000))
                                       (cards db))))
         (cards db).
Proof.
  intros Hfound Hok Hpay Hst Hsh H1 H2.
  apply pendingOrCancelled_spec in Hst.
  assert (Hrows : phase1Rows orderId order db = []).
  { unfold phase1Rows, reservedRows. rewrite H1. reflexivity. }
  repeat split.
  - simpl. rewrite H1. reflexivity.
  - exact Hrows.
  - rewrite run_fulfill, Hfound. cbv zeta.
    rewrite Hok, Hpay, Hst, Hsh, H2, andb_false_r. reflexivity.
  - rewrite run_fulfill, Hfound. cbv zeta.
    rewrite Hok, Hpay, Hst, Hsh, H2, andb_false_r. simpl.
    unfold phase2Cards, phase2Rows, phase1Cards. rewrite Hrows. simpl.
    unfold availableRows.
    destruct (Order.quantity order) as [[|n]|]; reflexivity.
Qed.

(** With the reservation timestamp column missing as well, the query of
    phase 2 raises and the call fails, store untouched. *)
Lemma reservation_columns_missing env db orderId paidAmount tradeNo order :
  orders db !! orderId = Some order ->
  amountMismatch paidAmount (parseFloat (Order.amount order)) = false ->
  isPaymentOrder (Order.productId order) = false ->
  Order.status order = "pending" \/ Order.status order = "cancelled" ->
  isSharedProduct (products db !! Order.productId order) = false ->
  has_reservedAt db = false ->
  run env (fulfill orderId paidAmount tradeNo) db
  = (Raise (NoSuchColumn "reserved_at"), db).
Proof.
  intros Hfound Hok Hpay Hst Hsh H2.
  apply pendingOrCancelled_spec in Hst.
  rewrite run_fulfill, Hfound. cbv zeta. rewrite Hok, Hpay, Hst, Hsh, H2.
  assert (Hrows : phase1Rows orderId order db = []).
  { unfold phase1Rows, reservedRows. rewrite H2, andb_false_r. reflexivity. }
  unfold phase1Cards. rewrite Hrows. simpl.
  rewrite withCards_same.
  destruct (Order.quantity order) as [[|n]|]; reflexivity.
Qed.

(** *** Calls made one after the other claim different cards *)

Lemma run_fulfill_flags env db orderId paidAmount tradeNo :
  has_reservedAt (snd (run env (fulfill orderId paidAmount tradeNo) db))
  = has_reservedAt db.
Proof.
  rewrite run_fulfill.
  destruct (orders db !! orderId) as [order|]; [|reflexivity].
  cbv zeta. destruct (amountMismatch _ _); [reflexivity|].
  destruct (isPaymentOrder _), (pendingOrCancelled _); try reflexivity.
  destruct (isSharedProduct _);
    [destruct (sharedOverflow _ _ _); reflexivity|].
  destruct (_ && _); reflexivity.
Qed.

(** Every card after a call is a card from before with the same id, either
    as it was or used. *)
Lemma run_fulfill_cards env db orderId paidAmount tradeNo c' :
  In c' (cards (snd (run env (fulfill orderId paidAmount tradeNo) db))) ->
  exists c, In c (cards db) /\ Card.id c' = Card.id c
            /\ (c' = c \/ Card.isUsed c' = Some true).
Proof.
  assert (H1 : forall order c1,
             In c1 (phase1Cards env orderId order db) ->
             exists c, In c (cards db) /\ Card.id c1 = Card.id c
                       /\ (c1 = c \/ Card.isUsed c1 = Some true)).
  { intros order c1 Hin. unfold phase1Cards in Hin.
    apply markAll_In in Hin. destruct Hin as [c [Hc [Hid ->]]].
    exists c. repeat split; try assumption.
    destruct (claimedBy _ c); [right; reflexivity|left; reflexivity]. }
  assert (H2 : forall order c2,
             In c2 (phase2Cards env orderId order db) ->
             exists c, In c (cards db) /\ Card.id c2 = Card.id c
                       /\ (c2 = c \/ Card.isUsed c2 = Some true)).
  { intros order c2 Hin. unfold phase2Cards in Hin.
    apply markAll_In in Hin. destruct Hin as [c1 [Hc1 [Hid ->]]].
    destruct (H1 _ _ Hc1) as [c [Hc [Hid1 Hor]]].
    exists c. split; [assumption|]. split; [congruence|].
    destruct (claimedBy _ c1); [right; reflexivity|exact Hor]. }
  rewrite run_fulfill. intros Hin.
  assert (Hsame : In c' (cards db) ->
                  exists c, In c (cards db) /\ Card.id c' = Card.id c
                            /\ (c' = c \/ Card.isUsed c' = Some true))
    by (intros; exists c'; auto).
  destruct (orders db !! orderId) as [order|]; [|auto].
  cbv zeta in Hin. destruct (amountMismatch _ _); [auto|].
  destruct (isPaymentOrder _).
  { destruct (pendingOrCancelled _); auto. }
  destruct (pendingOrCancelled _); [|auto].
  destruct (isSharedProduct _); [destruct (sharedOverflow _ _ _); auto|].
  destruct (_ && _); simpl in Hin; eauto.
Qed.

Lemma used_cards_stay_used db call id :
  (forall c, In c (cards db) -> Card.id c = id -> Card.isUsed c = Some true) ->
  forall c, In c (cards (runCall parseFloat isPaymentOrder db call)) ->
            Card.id c = id -> Card.isUsed c = Some true.
Proof.
  intros Hused c' Hin Hid. unfold runCall in Hin.
  apply run_fulfill_cards in Hin. destruct Hin as [c [Hc [Hidc [->|Hu]]]].
  - apply Hused; assumption.
  - exact Hu.
Qed.

(** A card update in the trace of a call is the update of a claimed row,
    and the cards the call leaves are those of the two phases. *)
Lemma updates_are_claims env db orderId paidAmount tradeNo id p :
  has_reservedAt db = true ->
  In (LUpdateCard id p) (trace env (fulfill orderId paidAmount tradeNo) db) ->
  exists order r,
    In r (claimedRows env orderId order db) /\ Row.id r = id
    /\ cards (snd (run env (fulfill orderId paidAmount tradeNo) db))
       = phase2Cards env orderId order db.
Proof.
  intros Hcol. rewrite trace_fulfill, run_fulfill.
  intros [Hin|Hin]; [discriminate|].
  destruct (orders db !! orderId) as [order|]; [|destruct Hin].
  cbv zeta. destruct (amountMismatch _ _); [destruct Hin|].
  destruct (isPaymentOrder _).
  { destruct (pendingOrCancelled _); [|destruct Hin].
    destruct Hin as [Hin|[]]. discriminate. }
  destruct (pendingOrCancelled _); [|destruct Hin].
  destruct Hin as [Hin|Hin]; [discriminate|].
  destruct (isSharedProduct _).
  { destruct Hin as [Hin|Hin]; [discriminate|].
    destruct (sharedOverflow _ _ _); [destruct Hin|].
    destruct Hin as [Hin|[]]; discriminate. }
  rewrite (trace_fulfillExhaustible _ _ _ _ _ Hcol) in Hin.
  rewrite Hcol, andb_false_r. cbv zeta in Hin.
  assert (Hrow : forall q rows,
             In (LUpdateCard id p)
                (map (fun r => LUpdateCard (Row.id r) q) rows) ->
             exists r, In r rows /\ Row.id r = id).
  { intros q rows H. apply in_map_iff in H. destruct H as [r [Hr Hrin]].
    exists r. split; [assumption|]. congruence. }
  exists order. unfold claimedRows.
  destruct Hin as [Hin|[Hin|Hin]]; try discriminate.
  apply in_app_iff in Hin. destruct Hin as [Hin|Hin].
  { destruct (Hrow _ _ Hin) as [r [Hr Hid]]. exists r.
    rewrite in_app_iff. auto. }
  apply in_app_iff in Hin. destruct Hin as [Hin|[Hin|[]]]; [|discriminate].
  destruct (_ <? _); [|destruct Hin].
  destruct Hin as [Hin|Hin]; [discriminate|].
  destruct (Hrow _ _ Hin) as [r [Hr Hid]]. exists r.
  rewrite in_app_iff. auto.
Qed.

Lemma runCalls_flags calls db :
  has_reservedAt (runCalls parseFloat isPaymentOrder calls db)
  = has_reservedAt db.
Proof.
  revert db. induction calls as [|call calls IH]; intros db; [reflexivity|].
  change (runCalls parseFloat isPaymentOrder (call :: calls) db)
    with (runCalls parseFloat isPaymentOrder calls
            (runCall parseFloat isPaymentOrder db call)).
  rewrite IH. apply run_fulfill_flags.
Qed.

Lemma runCalls_used calls db id :
  (forall c, In c (cards db) -> Card.id c = id -> Card.isUsed c = Some true) ->
  forall c, In c (cards (runCalls parseFloat isPaymentOrder calls db)) ->
            Card.id c = id -> Card.isUsed c = Some true.
Proof.
  revert db. induction calls as [|call calls IH]; intros db Hused;
    [exact Hused|].
  change (runCalls parseFloat isPaymentOrder (call :: calls) db)
    with (runCalls parseFloat isPaymentOrder calls
            (runCall parseFloat isPaymentOrder db call)).
  apply IH. apply used_cards_stay_used. exact Hused.
Qed.

(** X21. Run one after the other, no two calls update the same card: a card
    a call has marked is used, stays used, and later calls select unused
    cards only. *)
Theorem sequential_calls_claim_disjoint db call1 calls call2 id p1 p2 :
  has_reservedAt db = true ->
  In (LUpdateCard id p1) (traceCall parseFloat isPaymentOrder db call1) ->
  ~ In (LUpdateCard id p2)
       (traceCall parseFloat isPaymentOrder
          (runCalls parseFloat isPaymentOrder calls
             (runCall parseFloat isPaymentOrder db call1))
          call2).
Proof.
  intros Hcol H1 H2. unfold traceCall in *.
  apply (updates_are_claims _ _ _ _ _ _ _ Hcol) in H1.
  destruct H1 as [order1 [r1 [Hr1 [Hid1 Hcards1]]]].
  apply updates_are_claims in H2;
    [|rewrite runCalls_flags; unfold runCall; rewrite run_fulfill_flags;
      exact Hcol].
  destruct H2 as [order2 [r2 [Hr2 [Hid2 _]]]].
  apply claimedRows_unused in Hr2. destruct Hr2 as [c [Hc [-> Hun]]].
  assert (Hused : Card.isUsed c = Some true).
  { apply (runCalls_used calls
             (runCall parseFloat isPaymentOrder db call1) id);
      [|exact Hc|exact Hid2].
    intros c1 Hc1 Hidc1. unfold runCall in Hc1. rewrite Hcards1 in Hc1.
    apply (claimed_cards_used _ _ _ _ _ Hc1).
    apply claimedBy_In. exists r1. split; [assumption|congruence]. }
  unfold unused in Hun. rewrite Hused in Hun. discriminate.
Qed.

End Properties.

(** ** Worked examples *)

(** The spec's example: order amount 9.99, paid 9.90. *)
Lemma amount_guard_witness :
  run Ex.env0 (fulfill0 "o1" 9.90%float "T1") Ex.db1
  = (Raise (AmountMismatch (parseDecimal "9.99") 9.90%float), Ex.db1).
Proof.
  apply (amount_guard parseDecimal isPaymentProduct Ex.env0 Ex.db1
                      "o1" 9.90%float "T1" Ex.o1);
    vm_compute; reflexivity.
Defined.

(** A delivered order and a paid amount that is off. *)
Lemma amount_check_precedes_status_check_witness :
  run Ex.env0 (fulfill0 "o1" 9.90%float "T1") Ex.db1_delivered
  = (Raise (AmountMismatch (parseDecimal "9.99") 9.90%float), Ex.db1_delivered)
  /\ fst (run Ex.env0 (fulfill0 "o1" 9.90%float "T1") Ex.db1_delivered)
     <> Ok already_processed_.
Proof.
  apply (amount_check_precedes_status_check parseDecimal isPaymentProduct
           Ex.env0 Ex.db1_delivered "o1" 9.90%float "T1" Ex.o1_delivered);
    vm_compute; reflexivity.
Defined.

(** A pending payment-only order of 5.00, paid 5: the row read back is
    paid, stamped and carries the trade number. *)
Lemma payment_only_order_witness :
  fst (run Ex.env0 (fulfill0 "o9" 5%float "T1") Ex.db_pay) = Ok processed_
  /\ orders (snd (run Ex.env0 (fulfill0 "o9" 5%float "T1") Ex.db_pay)) !! "o9"
     = Some (Order.mk "payment" "5.00" (Some 1) "paid" (Some 1000000%Z) None
                      (Some "T1") None (Some "pay-1"))
  /\ trace Ex.env0 (fulfill0 "o9" 5%float "T1") Ex.db_pay
     = [LFindOrder "o9"; LUpdateOrder "o9" (SetPaid "T1")]
  /\ cards (snd (run Ex.env0 (fulfill0 "o9" 5%float "T1") Ex.db_pay))
     = [Ex.card 1 "p1" "K1"].
Proof.
  destruct (payment_only_order parseDecimal isPaymentProduct
              Ex.env0 Ex.db_pay "o9" 5%float "T1" Ex.pay1)
    as [Hans [Hpaid [_ [_ [Hcards _]]]]];
    [vm_compute; reflexivity | vm_compute; reflexivity
     | vm_compute; reflexivity | ].
  destruct Hpaid as [_ [Hrow Hsteps]]; [left; reflexivity|].
  split; [exact Hans|]. split; [exact Hrow|]. split; [exact Hsteps|].
  exact Hcards.
Defined.

Lemma terminal_status_no_mutation_witness :
  snd (run Ex.env0 (fulfill0 "o1" 9.99%float "T1") Ex.db1_delivered)
  = Ex.db1_delivered.
Proof.
  apply (terminal_status_no_mutation parseDecimal isPaymentProduct
           Ex.env0 Ex.db1_delivered "o1" 9.99%float "T1" Ex.o1_delivered);
    [vm_compute; reflexivity | right; reflexivity].
Defined.

(** C3 as worded fails: a payment-only order already paid is answered
    [processed], not [already_processed]. *)
Lemma terminal_payment_order_answers_processed :
  Ex.db_pay_paid.(orders) !! "o9" = Some Ex.pay1_paid
  /\ Order.status Ex.pay1_paid = "paid"
  /\ run Ex.env0 (fulfill0 "o9" 5%float "T1") Ex.db_pay_paid
     = (Ok processed_, Ex.db_pay_paid)
  /\ fst (run Ex.env0 (fulfill0 "o9" 5%float "T1") Ex.db_pay_paid)
     <> Ok already_processed_.
Proof.
  repeat split; try (vm_compute; reflexivity).
  vm_compute. discriminate.
Qed.


(** The spec's example: one shared unit [K1], quantity 3. *)
Lemma shared_product_delivery_witness :
  exists order',
    orders (snd (run Ex.env0 (fulfill0 "o4" 9.99%float "T1") Ex.db_shared))
      !! "o4" = Some order'
    /\ Order.status order' = "delivered"
    /\ Order.cardKey order' = Some "K1
K1
K1"
    /\ Order.currentPaymentId order' = None
    /\ cards (snd (run Ex.env0 (fulfill0 "o4" 9.99%float "T1") Ex.db_shared))
       = [Ex.card 7 "ps" "K1"].
Proof.
  destruct (shared_product_delivery parseDecimal isPaymentProduct Ex.env0
              Ex.db_shared "o4" 9.99%float "T1" Ex.o4 Ex.shared)
    as (unit & order' & Hin & _ & _ & _ & Hrow & Hst & Hkey & Hpay
        & _ & _ & _ & _ & _ & _ & Hcards & _);
    [vm_compute; reflexivity | vm_compute; reflexivity | reflexivity
     | left; reflexivity | vm_compute; reflexivity | reflexivity | | | ].
  - exists (Ex.card 7 "ps" "K1"). simpl. auto.
  - intros n [= <-]. reflexivity.
  - destruct Hin as [<-|[]]. exists order'.
    split; [exact Hrow|]. split; [exact Hst|]. split; [exact Hkey|].
    split; [exact Hpay|]. exact Hcards.
Defined.

(** A shared-product order of 2^32 units with a matching amount and a
    unit in stock: [Array(4294967296)] is a RangeError, the call fails and
    the order is as it was, pending. *)
Lemma shared_quantity_out_of_range :
  orders (Ex.db_bulk Ex.twoTo32) !! "o4" = Some (Ex.o_bulk Ex.twoTo32)
  /\ Order.status (Ex.o_bulk Ex.twoTo32) = "pending"
  /\ Order.quantity (Ex.o_bulk Ex.twoTo32) = Some Ex.twoTo32
  /\ Z.of_nat Ex.twoTo32 = 4294967296%Z
  /\ products (Ex.db_bulk Ex.twoTo32) !! "ps" = Some Ex.shared
  /\ cards (Ex.db_bulk Ex.twoTo32) = [Ex.card 7 "ps" "K1"]
  /\ run Ex.env0 (fulfill0 "o4" 9.99%float "T1") (Ex.db_bulk Ex.twoTo32)
     = (Raise InvalidArrayLength, Ex.db_bulk Ex.twoTo32).
Proof.
  assert (H : Z.of_nat Ex.twoTo32 = 4294967296%Z)
    by (unfold Ex.twoTo32; apply Z2Nat.id; lia).
  generalize dependent Ex.twoTo32. intros q Hq.
  destruct q as [|n]; [simpl in Hq; lia|].
  split; [vm_compute; reflexivity|]. split; [reflexivity|].
  split; [reflexivity|]. split; [exact Hq|].
  split; [vm_compute; reflexivity|]. split; [reflexivity|].
  rewrite run_fulfill.
  replace (orders (Ex.db_bulk (S n)) !! "o4") with (Some (Ex.o_bulk (S n)))
    by (vm_compute; reflexivity).
  cbv zeta.
  replace (amountMismatch _ _) with false by (vm_compute; reflexivity).
  replace (isPaymentProduct _) with false by reflexivity.
  replace (pendingOrCancelled _) with true by reflexivity.
  replace (isSharedProduct _) with true by (vm_compute; reflexivity).
  replace (sharedOverflow _ _ _) with true; [reflexivity|].
  symmetry. unfold sharedOverflow.
  replace (sharedRow _ _ _) with [Row.mk 7 "K1"] by (vm_compute; reflexivity).
  unfold arrayTooLong. apply Z.leb_le.
  change (quantityOr1 (Order.quantity (Ex.o_bulk (S n)))) with (S n).
  rewrite Hq. lia.
Qed.


(** Order [o1] is delivered, then the payment callback comes again. *)
Lemma delivered_order_is_final_witness :
  orders (runCalls parseDecimal isPaymentProduct
            [mkCall (mkEnv 2000000 0) "o1" 9.99%float "T2"]
            (snd (run Ex.env0 (fulfill0 "o1" 9.99%float "T1") Ex.db1)))
  !! "o1" = Some (Ex.delivered Ex.o1 "T1" "K1").
Proof.
  apply (delivered_order_is_final parseDecimal isPaymentProduct Ex.env0
           Ex.db1 "o1" 9.99%float "T1" Ex.o1);
    [vm_compute; reflexivity | vm_compute; discriminate
     | vm_compute; reflexivity | reflexivity].
Defined.

(** C7 as worded fails: the one unit claimed has the empty string as key,
    and the order is delivered with an empty [cardKey]. *)
Lemma delivered_with_empty_cardKey :
  exists order',
    orders (snd (run Ex.env0 (fulfill0 "o1" 9.99%float "T1") Ex.db_emptykey))
    !! "o1" = Some order'
    /\ Order.status order' = "delivered"
    /\ Order.cardKey order' = Some "".
Proof.
  exists (Ex.delivered Ex.o1 "T1" "").
  split; [vm_compute; reflexivity | split; reflexivity].
Qed.

(** C8: the call on a store whose cards table has neither reservation
    column.  The lookup of phase 1 raises and is caught; the query of
    phase 2 names [reserved_at], raises as well, and the call fails. *)
Theorem reservation_columns_missing_call_fails :
  fst (exec Ex.env0 (SelectReservedCards "o1" 1) Ex.db_nocols)
  = Raise (NoSuchColumn "reserved_order_id")
  /\ run Ex.env0 (claimReserved "o1" 1) Ex.db_nocols = (Ok [], Ex.db_nocols)
  /\ run Ex.env0 (fulfill0 "o1" 9.99%float "T1") Ex.db_nocols
     = (Raise (NoSuchColumn "reserved_at"), Ex.db_nocols).
Proof.
  split; [reflexivity | split; [vm_compute; reflexivity | ]].
  apply (reservation_columns_missing parseDecimal isPaymentProduct Ex.env0
           Ex.db_nocols "o1" 9.99%float "T1" Ex.o1);
    [vm_compute; reflexivity | vm_compute; reflexivity | reflexivity
     | left; reflexivity | reflexivity | reflexivity].
Qed.

(** C6: two calls for two orders of one unit each, two units in stock,
    interleaved so that both read the pool before either marks a card.
    Both orders are delivered the key of unit 1; unit 2 is left unused. *)
Theorem concurrent_double_claim :
  runSchedule Ex.env0 Ex.racy
    [fulfill0 "a" 9.99%float "TA"; fulfill0 "b" 9.99%float "TB"] Ex.db_race
  = ([Ret processed_; Ret processed_],
     Ex.store [("a", Ex.delivered Ex.oa1 "TA" "K1");
               ("b", Ex.delivered Ex.oa1 "TB" "K1")]
              [("p1", Ex.exhaustible)]
              [Ex.usedCard 1 "p1" "K1"; Ex.card 2 "p1" "K2"]).
Proof. vm_compute. reflexivity. Qed.

(** The same two calls one after the other: a unit each. *)
Example serial_calls_claim_distinct_units :
  runSchedule Ex.env0 Ex.serial
    [fulfill0 "a" 9.99%float "TA"; fulfill0 "b" 9.99%float "TB"] Ex.db_race
  = ([Ret processed_; Ret processed_],
     Ex.store [("a", Ex.delivered Ex.oa1 "TA" "K1");
               ("b", Ex.delivered Ex.oa1 "TB" "K2")]
              [("p1", Ex.exhaustible)]
              [Ex.usedCard 1 "p1" "K1"; Ex.usedCard 2 "p1" "K2"]).
Proof. vm_compute. reflexivity. Qed.

(** A difference within the tolerance passes the guard: 10.00 paid for an
    order of 9.99. *)
Example paid_within_tolerance :
  amountMismatch 10%float (parseDecimal "9.99") = false
  /\ run Ex.env0 (fulfill0 "o1" 10%float "T1") Ex.db1
     = (Ok processed_,
        Ex.store [("o1", Ex.delivered Ex.o1 "T1" "K1")] [("p1", Ex.exhaustible)]
                 [Ex.usedCard 1 "p1" "K1"]).
Proof. split; vm_compute; reflexivity. Qed.

(** An amount that does not read as a number makes the difference NaN,
    which is not greater than 0.01: the guard lets every paid amount
    through. *)
Example unreadable_amount_passes_guard :
  amountMismatch 0.01%float (parseDecimal "free") = false.
Proof. vm_compute. reflexivity. Qed.

(** ** The callback route *)

Module RouteFacts.
Import Route.

Lemma trimStart_app s l :
  forallb isWhiteSpace l = true -> trimStart (l ++ s) = trimStart s.
Proof.
  induction l as [|u l IH]; simpl; [reflexivity|].
  intros H. apply andb_true_iff in H. destruct H as [Hu Hl].
  rewrite Hu. apply IH, Hl.
Qed.

Lemma trimStart_snoc s u :
  isWhiteSpace u = false -> trimStart (s ++ [u]) = trimStart s ++ [u].
Proof.
  intros Hu. induction s as [|v s IH]; simpl.
  - rewrite Hu. reflexivity.
  - destruct (isWhiteSpace v); [exact IH|reflexivity].
Qed.

Lemma trimStart_blank s :
  forallb isWhiteSpace s = true -> trimStart s = [].
Proof.
  intros H. rewrite <- (app_nil_r s). rewrite trimStart_app by exact H.
  reflexivity.
Qed.

Lemma trimEnd_cons u s :
  isWhiteSpace u = false -> trimEnd (u :: s) = u :: trimEnd s.
Proof.
  intros Hu. unfold trimEnd. simpl. rewrite trimStart_snoc by exact Hu.
  rewrite rev_app_distr. reflexivity.
Qed.

Lemma trimEnd_app s r :
  forallb isWhiteSpace r = true -> trimEnd (s ++ r) = trimEnd s.
Proof.
  intros H. unfold trimEnd. rewrite rev_app_distr, trimStart_app;
    [reflexivity|].
  rewrite forallb_forall in *. intros u Hu. apply H, in_rev, Hu.
Qed.

(** A string that ends in a code unit that is no white space is its own
    [trimEnd]. *)
Lemma trimEnd_keeps t b :
  last t = Some b -> isWhiteSpace b = false -> trimEnd t = t.
Proof.
  intros Hlast Hb. unfold trimEnd.
  destruct (rev t) as [|b' t'] eqn:Hrev.
  - apply (f_equal (@rev N)) in Hrev. rewrite rev_involutive in Hrev.
    subst t. discriminate.
  - apply (f_equal (@rev N)) in Hrev. rewrite rev_involutive in Hrev.
    simpl in Hrev. subst t. rewrite last_snoc in Hlast.
    injection Hlast as ->. simpl. rewrite Hb. reflexivity.
Qed.

(** Every string is blank or a core between two blank margins. *)
Lemma margins s :
  forallb isWhiteSpace s = true
  \/ exists l t r a b,
       s = l ++ t ++ r
       /\ forallb isWhiteSpace l = true /\ forallb isWhiteSpace r = true
       /\ head t = Some a /\ isWhiteSpace a = false
       /\ last t = Some b /\ isWhiteSpace b = false.
Proof.
  assert (Hstart : forall s,
             forallb isWhiteSpace s = true
             \/ exists l a t, s = l ++ a :: t
                  /\ forallb isWhiteSpace l = true /\ isWhiteSpace a = false).
  { clear s. induction s as [|u s IH]; [left; reflexivity|].
    destruct (isWhiteSpace u) eqn:Hu.
    - destruct IH as [IH|[l [a [t [-> [Hl Ha]]]]]].
      + left. simpl. rewrite Hu. exact IH.
      + right. exists (u :: l), a, t. simpl. rewrite Hu. auto.
    - right. exists [], u, s. auto. }
  destruct (Hstart s) as [H|[l [a [t [-> [Hl Ha]]]]]]; [left; exact H|].
  right.
  destruct (Hstart (rev (a :: t))) as [H|[r' [b [t' [Hrev [Hr Hb]]]]]].
  { rewrite forallb_forall in H. rewrite (H a) in Ha; [discriminate|].
    apply in_rev. rewrite rev_involutive. left. reflexivity. }
  apply (f_equal (@rev N)) in Hrev. rewrite rev_involutive in Hrev.
  rewrite rev_app_distr in Hrev. simpl in Hrev. rewrite <- app_assoc in Hrev.
  simpl in Hrev.
  exists l, (rev t' ++ [b]), (rev r'), a, b.
  assert (Hr' : forallb isWhiteSpace (rev r') = true).
  { rewrite forallb_forall in *. intros u Hu. apply Hr, in_rev, Hu. }
  repeat split; try assumption.
  - rewrite Hrev, <- app_assoc. reflexivity.
  - destruct (rev t') as [|c t'']; simpl in *; congruence.
  - apply last_snoc.
Qed.

Section Handler.

Context {Url : Type} (newURL : jsstring -> Url -> Url).

(** X1. A missing, empty or all-white-space id is redirected to the root
    path. *)
Theorem GET_blank_id id url :
  forallb isWhiteSpace (default [] id) = true ->
  GET Url newURL id url = redirect Url (newURL (units "/") url).
Proof.
  intros H. unfold GET, trim. rewrite (trimStart_blank _ H). reflexivity.
Qed.

(** X2. For an id that is a core [t] between white-space margins, [t]
    starting and ending with a code unit that is no white space, the
    handler redirects to [new URL(input, url)] where [input] is [/order/]
    followed by [t]: [trim] drops the margins and nothing else, and the
    handler does nothing more to the core before it hands it to the URL
    constructor.  What the constructor makes of [input] (dot segments, [?]
    and [#], percent-encoding) is the platform's and is not stated here. *)
Theorem GET_order_id l t r a b url :
  forallb isWhiteSpace l = true -> forallb isWhiteSpace r = true ->
  head t = Some a -> isWhiteSpace a = false ->
  last t = Some b -> isWhiteSpace b = false ->
  GET Url newURL (Some (l ++ t ++ r)) url
  = redirect Url (newURL (units "/order/" ++ t) url).
Proof.
  intros Hl Hr Ha Hna Hb Hnb. unfold GET, trim. simpl default.
  rewrite trimStart_app by exact Hl.
  destruct t as [|a' t']; [discriminate|]. injection Ha as ->.
  simpl trimStart. rewrite Hna.
  change (a :: t' ++ r) with ((a :: t') ++ r).
  rewrite trimEnd_app by exact Hr.
  rewrite (trimEnd_keeps _ _ Hb Hnb). reflexivity.
Qed.

End Handler.

End RouteFacts.

(** ** The fulfilment routine, further *)

Lemma status_after_patch t p o :
  pendingOrCancelled (Order.status (applyOrderPatch t p o)) = false.
Proof. destruct p; reflexivity. Qed.

Lemma lookup_patchOrder env orderId p db :
  orders (patchOrder env orderId p db) !! orderId
  = applyOrderPatch (now env) p <$> orders db !! orderId.
Proof. unfold patchOrder. simpl. apply lookup_alter_eq. Qed.

Lemma phase1Rows_nocol orderId order db :
  has_reservedAt db = false -> phase1Rows orderId order db = [].
Proof.
  intros H. unfold phase1Rows, reservedRows. rewrite H, andb_false_r.
  reflexivity.
Qed.

Lemma phase1Cards_nocol env orderId order db :
  has_reservedAt db = false -> phase1Cards env orderId order db = cards db.
Proof.
  intros H. unfold phase1Cards. rewrite (phase1Rows_nocol _ _ _ H).
  reflexivity.
Qed.

(** *** Counting and telling apart the claimed cards *)

Lemma NoDup_map_In {A B} (f : A -> B) (l : list A) x y :
  List.NoDup (map f l) -> In x l -> In y l -> f x = f y -> x = y.
Proof.
  induction l as [|a l IH]; simpl; [intros _ []|].
  intros Hnd Hx Hy Hf. inversion Hnd as [|? ? Hnotin Hnd']; subst.
  destruct Hx as [->|Hx], Hy as [->|Hy]; try reflexivity.
  - exfalso. apply Hnotin. rewrite Hf. apply in_map, Hy.
  - exfalso. apply Hnotin. rewrite <- Hf. apply in_map, Hx.
  - apply IH; assumption.
Qed.

Lemma NoDup_map_filter {A B} (f : A -> B) (P : A -> bool) (l : list A) :
  List.NoDup (map f l) -> List.NoDup (map f (List.filter P l)).
Proof.
  induction l as [|a l IH]; simpl; [auto|].
  intros Hnd. inversion Hnd as [|? ? Hnotin Hnd']; subst.
  destruct (P a); simpl; [|auto].
  constructor; [|auto].
  intros Hin. apply Hnotin. apply in_map_iff in Hin.
  destruct Hin as [x [Hx Hin]]. apply filter_In in Hin.
  apply in_map_iff. exists x. tauto.
Qed.

Lemma NoDup_take_list {A} (l : list A) n :
  List.NoDup l -> List.NoDup (take n l).
Proof.
  revert n. induction l as [|a l IH]; intros [|n] Hnd; simpl;
    try constructor.
  - inversion Hnd as [|? ? Hnotin Hnd']; subst.
    intros Hin. apply Hnotin.
    apply list_elem_of_In, subseteq_take, list_elem_of_In in Hin. exact Hin.
  - inversion Hnd; subst. apply IH. assumption.
Qed.

Lemma map_id_toRow cs : map Row.id (map toRow cs) = map Card.id cs.
Proof. rewrite map_map. reflexivity. Qed.

Lemma map_id_markAll t p rows cs :
  map Card.id (markAll t p rows cs) = map Card.id cs.
Proof.
  rewrite markAll_map, map_map. apply map_ext. intros c.
  destruct (claimedBy rows c); [apply applyCardPatch_id|reflexivity].
Qed.


Lemma length_filter_map {A} (P Q : A -> bool) (g : A -> A) (l : list A) :
  (forall x, In x l -> P (g x) = Q x) ->
  length (List.filter P (map g l)) = length (List.filter Q l).
Proof.
  induction l as [|a l IH]; simpl; [reflexivity|].
  intros H. rewrite (H a) by auto.
  destruct (Q a); simpl; rewrite IH; auto.
Qed.



(** With distinct card ids, the rows a call claims have distinct ids. *)
Lemma NoDup_claimedRows env orderId order db :
  List.NoDup (map Card.id (cards db)) ->
  List.NoDup (map Row.id (claimedRows env orderId order db)).
Proof.
  intros Hnd. unfold claimedRows. rewrite map_app.
  assert (Hsel : forall (P : Card.t -> bool) n cs,
             List.NoDup (map Card.id cs) ->
             List.NoDup (map Row.id (take n (map toRow (List.filter P cs))))).
  { intros P n cs Hcs. rewrite <- firstn_map, map_id_toRow.
    apply NoDup_take_list, NoDup_map_filter, Hcs. }
  apply List.NoDup_app.
  - unfold phase1Rows, reservedRows. destruct (_ && _); [|constructor].
    apply Hsel, Hnd.
  - unfold phase2Rows, availableRows. destruct (_ <? _); [|constructor].
    apply Hsel. unfold phase1Cards. rewrite map_id_markAll. exact Hnd.
  - intros id Hin1 Hin2.
    apply in_map_iff in Hin1. destruct Hin1 as [r1 [Hid1 Hr1]].
    apply in_map_iff in Hin2. destruct Hin2 as [r2 [Hid2 Hr2]].
    apply In_availableRows in Hr2. destruct Hr2 as [c2 [Hc2 [-> Ha]]].
    apply available_unused in Ha.
    unfold phase1Cards in Hc2. apply markAll_In in Hc2.
    destruct Hc2 as [c [Hc [Hidc Heq]]].
    assert (Hcl : claimedBy (phase1Rows orderId order db) c = true).
    { apply claimedBy_In. exists r1. split; [assumption|].
      simpl in Hid2. congruence. }
    rewrite Hcl in Heq. subst c2. rewrite applyCardPatch_used in Ha.
    discriminate.
Qed.

Lemma length_filter_ext_In {A} (P Q : A -> bool) (l : list A) :
  (forall x, In x l -> P x = Q x) ->
  length (List.filter P l) = length (List.filter Q l).
Proof.
  intros H. rewrite <- (map_id l) at 1. apply length_filter_map. exact H.
Qed.

(** With distinct card ids, a call's claimed rows and the cards they name
    are as many. *)
Lemma length_claimed_cards env orderId order db :
  List.NoDup (map Card.id (cards db)) ->
  length (List.filter (claimedBy (claimedRows env orderId order db)) (cards db))
  = length (claimedRows env orderId order db).
Proof.
  intros Hnd.
  rewrite <- (length_map Card.id (List.filter _ _)).
  rewrite <- (length_map Row.id (claimedRows env orderId order db)).
  apply Permutation.Permutation_length, Permutation.NoDup_Permutation.
  - apply NoDup_map_filter, Hnd.
  - apply NoDup_claimedRows, Hnd.
  - intros id. rewrite !in_map_iff. split.
    + intros [c [<- Hc]]. apply filter_In in Hc. destruct Hc as [_ Hcl].
      apply claimedBy_In in Hcl. destruct Hcl as [r [Hr Hid]]. eauto.
    + intros [r [<- Hr]].
      destruct (claimedRows_unused _ _ _ _ _ Hr) as [c [Hc [-> _]]].
      exists c. split; [reflexivity|]. apply filter_In. split; [assumption|].
      apply claimedBy_In. exists (toRow c). auto.
Qed.

(** *** What the statements keep *)

Lemma Kept_refl db : Kept db db.
Proof.
  constructor; try reflexivity.
  - intros oid. destruct (orders db !! oid); auto.
  - apply Forall2_same_length_lookup_2; [reflexivity|].
    intros i c c' H1 H2. rewrite H1 in H2. injection H2 as <-. auto.
Qed.

Lemma Kept_trans db1 db2 db3 : Kept db1 db2 -> Kept db2 db3 -> Kept db1 db3.
Proof.
  intros [Hp Ho Ha Hos Hcs] [Hp' Ho' Ha' Hos' Hcs'].
  constructor; try congruence.
  - intros oid. specialize (Hos oid). specialize (Hos' oid).
    destruct (orders db1 !! oid), (orders db2 !! oid), (orders db3 !! oid);
      try tauto.
    destruct Hos as [? [? ?]], Hos' as [? [? ?]]. repeat split; congruence.
  - revert Hcs Hcs'. generalize (cards db1) (cards db2) (cards db3).
    intros l1 l2 l3 H12. revert l3.
    induction H12 as [|c1 c2 l1 l2 Hc H12 IH]; intros l3 H23;
      inversion H23 as [|? c3 ? l3' Hc' H23']; subst; constructor.
    + destruct Hc as [? [? [? ?]]], Hc' as [? [? [? ?]]].
      repeat split; try congruence. auto.
    + apply IH. assumption.
Qed.

Lemma Kept_withCards db t id p :
  Kept db (withCards db (updateCards t id p (cards db))).
Proof.
  constructor; try reflexivity.
  - intros oid. simpl. destruct (orders db !! oid); auto.
  - simpl. unfold updateCards. induction (cards db) as [|c cs IH];
      simpl; constructor; [|exact IH].
    destruct (Card.id c =? id)%Z; [|auto].
    destruct p; simpl; auto.
Qed.

Lemma Kept_exec env {X} (c : Cmd X) db : Kept db (snd (exec env c db)).
Proof.
  destruct c as [| | | | |id [|]|oid p|]; simpl;
    try apply Kept_refl.
  - destruct (has_reservedOrderId db); apply Kept_refl.
  - destruct (has_reservedAt db); apply Kept_refl.
  - destruct (negb (has_reservedOrderId db)); [apply Kept_refl|].
    destruct (negb (has_reservedAt db)); [apply Kept_refl|].
    apply Kept_withCards.
  - apply Kept_withCards.
  - constructor; try reflexivity.
    + intros oid'. simpl. rewrite lookup_alter.
      destruct (decide (oid = oid')) as [<-|].
      * destruct (orders db !! oid); simpl; [|trivial].
        destruct p; simpl; auto.
      * destruct (orders db !! oid'); auto.
    + simpl. apply (kept_cards _ _ (Kept_refl db)).
Qed.

Lemma Kept_stepCall env {A} (p : Prog A) db :
  Kept db (snd (stepCall env p db)).
Proof.
  destruct p as [a|e|X c k]; simpl; try apply Kept_refl.
  pose proof (Kept_exec env c db) as H.
  destruct (exec env c db) as [r db']. exact H.
Qed.

Lemma Kept_runSchedule env {A} sched (calls : list (Prog A)) db :
  Kept db (snd (runSchedule env sched calls db)).
Proof.
  revert calls db. induction sched as [|i sched IH]; intros calls db; simpl.
  - apply Kept_refl.
  - destruct (calls !! i) as [p|]; [|apply IH].
    pose proof (Kept_stepCall env p db) as H.
    destruct (stepCall env p db) as [p' db']. simpl in H.
    eapply Kept_trans; [exact H|apply IH].
Qed.

Lemma Kept_run env {A} (p : Prog A) db : Kept db (snd (run env p db)).
Proof.
  revert db. induction p as [a|e|X c k IH]; intros db; simpl;
    try apply Kept_refl.
  pose proof (Kept_exec env c db) as H.
  destruct (exec env c db) as [r db']. simpl in H.
  eapply Kept_trans; [exact H|apply IH].
Qed.

Lemma length_filter_split {A} (P Q : A -> bool) (l : list A) :
  length (List.filter P l)
  = length (List.filter (fun x => P x && negb (Q x)) l)
    + length (List.filter (fun x => P x && Q x) l).
Proof.
  induction l as [|a l IH]; simpl; [reflexivity|].
  destruct (P a), (Q a); simpl; rewrite IH; lia.
Qed.

(** *** How many statements *)

Lemma trace_claimReservedLoop_nocol env rows acc db :
  has_reservedOrderId db && has_reservedAt db = false ->
  length (trace env (claimReservedLoop rows acc) db) <= 1.
Proof.
  intros H. destruct rows as [|r rows]; simpl; [lia|].
  destruct (has_reservedOrderId db); simpl in *; [|simpl; lia].
  rewrite H. simpl. lia.
Qed.

Lemma trace_fulfillExhaustible_nocol env orderId tradeNo order db :
  has_reservedAt db = false ->
  length (trace env (fulfillExhaustible orderId tradeNo order) db) <= 4.
Proof.
  intros H2. unfold fulfillExhaustible.
  rewrite trace_bind, trace_await, run_await. simpl exec. cbv iota.
  rewrite trace_bind, run_claimReserved.
  assert (Hrows : reservedRows orderId (quantityOr1 (Order.quantity order)) db
                  = []).
  { unfold reservedRows. rewrite H2, andb_false_r. reflexivity. }
  rewrite Hrows. simpl markAll. rewrite withCards_same. simpl map.
  assert (H1 : length (trace env (claimReserved orderId
                                    (quantityOr1 (Order.quantity order))) db)
               <= 2).
  { unfold claimReserved. simpl.
    destruct (has_reservedOrderId db) eqn:Hro; simpl; [|lia].
    pose proof (trace_claimReservedLoop_nocol env
                  (take (quantityOr1 (Order.quantity order))
                        (map toRow (List.filter (reservedFor orderId)
                                                (cards db))))
                  [] db) as Hl.
    rewrite Hro, H2 in Hl. specialize (Hl eq_refl). lia. }
  set (steps1 := trace env (claimReserved orderId
                              (quantityOr1 (Order.quantity order))) db) in *.
  rewrite trace_bind, run_claimAvailable.
  assert (Hq : (length (@nil string) <? quantityOr1 (Order.quantity order))
               = true)
    by (destruct (Order.quantity order) as [[|n]|]; reflexivity).
  rewrite Hq, H2. simpl andb. cbv iota.
  unfold claimAvailable. rewrite Hq.
  rewrite trace_bind, trace_await, run_await. simpl exec. rewrite H2.
  rewrite !length_app. simpl. lia.
Qed.

(** *** The card updates of a call *)

Lemma updatedIds_updates p rows :
  updatedIds (map (fun r => LUpdateCard (Row.id r) p) rows) = map Row.id rows.
Proof.
  induction rows as [|r rows IH]; [reflexivity|].
  simpl. unfold updatedIds in *. simpl. rewrite IH. reflexivity.
Qed.

Lemma updatedIds_app l k :
  updatedIds (l ++ k) = updatedIds l ++ updatedIds k.
Proof. apply omap_app. Qed.

Lemma updatedIds_fulfillExhaustible env orderId tradeNo order db :
  has_reservedAt db = true ->
  updatedIds (trace env (fulfillExhaustible orderId tradeNo order) db)
  = map Row.id (claimedRows env orderId order db).
Proof.
  intros H2. rewrite (trace_fulfillExhaustible _ _ _ _ _ H2). cbv zeta.
  change (updatedIds (?a :: ?b :: ?l)) with (updatedIds l).
  rewrite !updatedIds_app, updatedIds_updates. unfold claimedRows. rewrite map_app. f_equal.
  destruct (_ <? _) eqn:E.
  - change (updatedIds (?a :: ?l)) with (updatedIds l).
    rewrite updatedIds_updates. apply app_nil_r.
  - unfold phase2Rows, availableRows. rewrite E. reflexivity.
Qed.

(** *** The amount guard on binary64 values *)

Lemma Prim2SF_tolerance :
  Prim2SF 0.01%float = S754_finite false 5764607523034235 (-59).
Proof. vm_compute. reflexivity. Qed.

Lemma Prim2SF_nan : Prim2SF PrimFloat.nan = S754_nan.
Proof. vm_compute. reflexivity. Qed.

Lemma amountMismatch_spec x y :
  amountMismatch x y
  = SFltb (S754_finite false 5764607523034235 (-59))
          (SFabs (SF64sub (Prim2SF x) (Prim2SF y))).
Proof.
  unfold amountMismatch.
  rewrite FloatAxioms.ltb_spec, FloatAxioms.abs_spec, FloatAxioms.sub_spec,
          Prim2SF_tolerance.
  reflexivity.
Qed.

Lemma SFabs_binary_round s m e :
  SFabs (binary_round prec emax s m e)
  = SFabs (binary_round prec emax false m e).
Proof.
  unfold binary_round, binary_round_aux.
  destruct (shl_align m e _) as [mz ez].
  destruct (shr_fexp prec emax (Z.pos mz) ez loc_Exact) as [mrs' e'].
  destruct (shr_fexp prec emax _ e' loc_Exact) as [mrs'' e''].
  destruct (shr_m mrs''); try reflexivity.
  destruct (_ <=? _)%Z; reflexivity.
Qed.

Lemma SFabs_binary_normalize_opp m e :
  SFabs (binary_normalize prec emax (- m) e false)
  = SFabs (binary_normalize prec emax m e false).
Proof.
  destruct m as [|p|p]; simpl; [reflexivity| |].
  - apply SFabs_binary_round.
  - symmetry. apply SFabs_binary_round.
Qed.

Lemma SFabs_sub_comm a b :
  SFabs (SF64sub a b) = SFabs (SF64sub b a).
Proof.
  unfold SF64sub.
  destruct a as [sa|sa| |sa ma ea], b as [sb|sb| |sb mb eb];
    try (destruct sa); try (destruct sb); try reflexivity.
  all: unfold SFsub; rewrite (Z.min_comm eb ea);
    rewrite <- SFabs_binary_normalize_opp; f_equal; f_equal; lia.
Qed.

Lemma amountMismatch_comm x y : amountMismatch x y = amountMismatch y x.
Proof. rewrite !amountMismatch_spec, SFabs_sub_comm. reflexivity. Qed.

Lemma amountMismatch_diag x : amountMismatch x x = false.
Proof.
  rewrite amountMismatch_spec. unfold SF64sub.
  destruct (Prim2SF x) as [s|s| |s m e]; try (destruct s); try reflexivity.
  all: unfold SFsub; rewrite Z.sub_diag; reflexivity.
Qed.

Lemma amountMismatch_nan_r x : amountMismatch x PrimFloat.nan = false.
Proof.
  rewrite amountMismatch_spec, Prim2SF_nan. unfold SF64sub.
  destruct (Prim2SF x); reflexivity.
Qed.

(** *** Where the order is written *)

Lemma no_order_update_in_updates p rows :
  forallb (fun l => negb (isOrderUpdate l))
          (map (fun r => LUpdateCard (Row.id r) p) rows) = true.
Proof. induction rows as [|r rows IH]; [reflexivity|exact IH]. Qed.

Lemma no_order_update_claimReservedLoop env rows acc db :
  forallb (fun l => negb (isOrderUpdate l))
          (trace env (claimReservedLoop rows acc) db) = true.
Proof.
  revert acc db. induction rows as [|r rows IH]; intros acc db; simpl;
    [reflexivity|].
  destruct (negb (has_reservedOrderId db)); [reflexivity|].
  destruct (negb (has_reservedAt db)); [reflexivity|].
  simpl. apply IH.
Qed.

Lemma no_order_update_claimReserved env orderId quantity db :
  forallb (fun l => negb (isOrderUpdate l))
          (trace env (claimReserved orderId quantity) db) = true.
Proof.
  unfold claimReserved. simpl.
  destruct (has_reservedOrderId db); [|reflexivity].
  simpl. apply no_order_update_claimReservedLoop.
Qed.

Lemma no_order_update_claimAvailable env productId oneMinuteAgo quantity
    cardKeys db :
  forallb (fun l => negb (isOrderUpdate l))
          (trace env (claimAvailable productId oneMinuteAgo quantity cardKeys)
                 db) = true.
Proof.
  unfold claimAvailable. destruct (_ <? _); [|reflexivity].
  rewrite trace_bind, trace_await, run_await. simpl exec.
  destruct (has_reservedAt db); [|reflexivity].
  simpl. rewrite trace_claimAvailableLoop. apply no_order_update_in_updates.
Qed.

(** The statements of the exhaustible branch: none of them writes the
    orders table, but for the last, if the branch gets that far. *)
Lemma trace_fulfillExhaustible_shape env orderId tradeNo order db :
  exists pre post,
    trace env (fulfillExhaustible orderId tradeNo order) db = pre ++ post
    /\ forallb (fun l => negb (isOrderUpdate l)) pre = true
    /\ (post = [] \/ exists p, post = [LUpdateOrder orderId p]).
Proof.
  unfold fulfillExhaustible.
  rewrite trace_bind, trace_await, run_await. simpl exec. cbv iota.
  rewrite trace_bind, run_claimReserved.
  set (q := quantityOr1 (Order.quantity order)).
  set (db1 := withCards db _).
  set (keys1 := map Row.cardKey _).
  rewrite trace_bind.
  pose proof (no_order_update_claimReserved env orderId q db) as H1.
  pose proof (no_order_update_claimAvailable env (Order.productId order)
                (now env - 60000) q keys1 db1) as H2.
  set (t1 := trace env (claimReserved orderId q) db) in *.
  set (t2 := trace env (claimAvailable _ _ _ _) db1) in *.
  destruct (run env (claimAvailable (Order.productId order)
                       (now env - 60000) q keys1) db1) as [[keys2|e] db2].
  - exists ([label DateNow] ++ t1 ++ t2),
           [LUpdateOrder orderId (settlePatch tradeNo keys2)].
    rewrite trace_settle. repeat split.
    + rewrite <- !app_assoc. reflexivity.
    + simpl. rewrite forallb_app, H1, H2. reflexivity.
    + right. eauto.
  - exists ([label DateNow] ++ t1 ++ t2), [].
    repeat split.
    + rewrite <- !app_assoc. reflexivity.
    + simpl. rewrite forallb_app, H1, H2. reflexivity.
    + left. reflexivity.
Qed.

Lemma order_update_at_end pre post orderId i o p :
  forallb (fun l => negb (isOrderUpdate l)) pre = true ->
  post = [] \/ (exists q, post = [LUpdateOrder orderId q]) ->
  (pre ++ post) !! i = Some (LUpdateOrder o p) ->
  o = orderId /\ S i = length (pre ++ post).
Proof.
  intros Hpre Hpost Hi.
  destruct (lookup_app_Some pre post i (LUpdateOrder o p)) as [H _].
  destruct (H Hi) as [Hin|[Hge Hin]].
  - apply list_elem_of_lookup_2, list_elem_of_In in Hin.
    rewrite forallb_forall in Hpre. specialize (Hpre _ Hin). discriminate.
  - destruct Hpost as [->|[q ->]]; [discriminate|].
    destruct (i - length pre) as [|n] eqn:E; [|discriminate].
    injection Hin as -> ->. rewrite length_app. simpl. split; [reflexivity|lia].
Qed.

Section Further.

Context (parseFloat : string -> float) (isPaymentOrder : string -> bool).

Abbreviation fulfill := (processOrderFulfillment parseFloat isPaymentOrder).

(** X3. A call for an order id the orders table does not hold fails with
    the not-found error after the one lookup, and the store is as it was. *)
Theorem order_not_found env db orderId paidAmount tradeNo :
  orders db !! orderId = None ->
  run env (fulfill orderId paidAmount tradeNo) db
  = (Raise (OrderNotFound orderId), db)
  /\ trace env (fulfill orderId paidAmount tradeNo) db = [LFindOrder orderId].
Proof.
  intros Hnone.
  rewrite (run_fulfill parseFloat isPaymentOrder),
          (trace_fulfill parseFloat isPaymentOrder), Hnone.
  split; reflexivity.
Qed.

(** X4. A call that fails leaves the whole store as it was, and it fails in
    one of four ways: order not found, amount mismatch, the [reserved_at]
    column missing, or, for a shared product, a quantity of 2^32 or more
    given to [Array]. *)
Theorem failed_call_changes_nothing env db orderId paidAmount tradeNo e :
  fst (run env (fulfill orderId paidAmount tradeNo) db) = Raise e ->
  snd (run env (fulfill orderId paidAmount tradeNo) db) = db
  /\ (e = OrderNotFound orderId
      \/ (exists order, orders db !! orderId = Some order
            /\ e = AmountMismatch (parseFloat (Order.amount order)) paidAmount)
      \/ (e = NoSuchColumn "reserved_at" /\ has_reservedAt db = false)
      \/ (e = InvalidArrayLength
          /\ exists order n,
               orders db !! orderId = Some order
               /\ isSharedProduct (products db !! Order.productId order) = true
               /\ Order.quantity order = Some n
               /\ (4294967296 <= Z.of_nat n)%Z)).
Proof.
  rewrite (run_fulfill parseFloat isPaymentOrder).
  destruct (orders db !! orderId) as [order|] eqn:Hfound.
  2:{ simpl. intros [= <-]. auto. }
  cbv zeta. destruct (amountMismatch _ _).
  { simpl. intros [= <-]. split; [reflexivity|]. right. left. eauto. }
  destruct (isPaymentOrder _).
  { destruct (pendingOrCancelled _); discriminate. }
  destruct (pendingOrCancelled _); [|discriminate].
  destruct (isSharedProduct _) eqn:Hsh.
  { destruct (sharedOverflow env order db) eqn:Hover; [|discriminate].
    simpl. intros [= <-]. split; [reflexivity|]. do 3 right.
    split; [reflexivity|].
    unfold sharedOverflow, arrayTooLong in Hover.
    destruct (sharedRow env order db); [discriminate|].
    apply Z.leb_le in Hover.
    destruct (Order.quantity order) as [[|n]|] eqn:Hq;
      [simpl in Hover; lia | | simpl in Hover; lia].
    exists order, (S n).
    split; [reflexivity|]. split; [exact Hsh|]. split; [exact Hq|].
    exact Hover. }
  destruct (has_reservedAt db) eqn:Hcol.
  { rewrite andb_false_r. discriminate. }
  destruct (_ && _); [|discriminate].
  simpl. intros [= <-]. rewrite (phase1Cards_nocol _ _ _ _ Hcol).
  rewrite withCards_same. split; [reflexivity|]. right. right. left.
  split; reflexivity.
Qed.

(** X5. Every status other than pending and cancelled, not only paid and
    delivered, ends the call after the one lookup with the store as it
    was; with a matching amount the answer is [already_processed], or
    [processed] for a payment-only order. *)
Theorem other_status_is_processed env db orderId paidAmount tradeNo order :
  orders db !! orderId = Some order ->
  Order.status order <> "pending" -> Order.status order <> "cancelled" ->
  snd (run env (fulfill orderId paidAmount tradeNo) db) = db
  /\ trace env (fulfill orderId paidAmount tradeNo) db = [LFindOrder orderId]
  /\ (amountMismatch paidAmount (parseFloat (Order.amount order)) = false ->
      fst (run env (fulfill orderId paidAmount tradeNo) db)
      = Ok (if isPaymentOrder (Order.productId order)
            then processed_ else already_processed_)).
Proof.
  intros Hfound Hp Hc.
  assert (Hst : pendingOrCancelled (Order.status order) = false).
  { destruct (pendingOrCancelled (Order.status order)) eqn:E; [|reflexivity].
    apply pendingOrCancelled_spec in E. tauto. }
  rewrite (run_fulfill parseFloat isPaymentOrder),
          (trace_fulfill parseFloat isPaymentOrder), Hfound.
  cbv zeta. rewrite Hst.
  destruct (amountMismatch _ _), (isPaymentOrder _);
    repeat split; try reflexivity; discriminate.
Qed.

(** The order of a call that has returned is no longer pending or
    cancelled. *)
Lemma returned_call_settles env db orderId paidAmount tradeNo r db1 :
  run env (fulfill orderId paidAmount tradeNo) db = (Ok r, db1) ->
  exists order1, orders db1 !! orderId = Some order1
                 /\ pendingOrCancelled (Order.status order1) = false.
Proof.
  rewrite (run_fulfill parseFloat isPaymentOrder).
  destruct (orders db !! orderId) as [order|] eqn:Hfound; [|discriminate].
  cbv zeta. destruct (amountMismatch _ _); [discriminate|].
  assert (Hpatch : forall p db0,
             orders db0 = orders db ->
             exists order1,
               orders (patchOrder env orderId p db0) !! orderId = Some order1
               /\ pendingOrCancelled (Order.status order1) = false).
  { intros p db0 H0. rewrite lookup_patchOrder, H0, Hfound.
    eexists. split; [reflexivity|apply status_after_patch]. }
  destruct (isPaymentOrder _).
  { destruct (pendingOrCancelled _) eqn:Hst; intros [= <- <-]; eauto. }
  destruct (pendingOrCancelled _) eqn:Hst; [|intros [= <- <-]; eauto].
  destruct (isSharedProduct _).
  { destruct (sharedOverflow _ _ _); [discriminate|].
    intros [= <- <-]; eauto. }
  destruct (_ && _); [discriminate|]. intros [= <- <-]. apply Hpatch.
  reflexivity.
Qed.

(** X6. Once a call for an order has returned, no later call for that
    order changes anything, whatever has happened to the rest of the store
    in between: an order left paid for lack of stock is not delivered by
    calling again after stock has arrived. *)
Theorem returned_call_is_final env db orderId paidAmount tradeNo r db1
    db2 env' paidAmount' tradeNo' :
  run env (fulfill orderId paidAmount tradeNo) db = (Ok r, db1) ->
  orders db2 !! orderId = orders db1 !! orderId ->
  snd (run env' (fulfill orderId paidAmount' tradeNo') db2) = db2.
Proof.
  intros Hrun Hsame.
  destruct (returned_call_settles _ _ _ _ _ _ _ Hrun) as [order1 [H1 Hst]].
  rewrite H1 in Hsame.
  rewrite (run_fulfill parseFloat isPaymentOrder), Hsame. cbv zeta.
  rewrite Hst.
  destruct (amountMismatch _ _); [reflexivity|].
  destruct (isPaymentOrder _); reflexivity.
Qed.


(** The cards after an exhaustible-product call, card by card. *)
Lemma cards_after_fulfill env db orderId paidAmount tradeNo order :
  orders db !! orderId = Some order ->
  amountMismatch paidAmount (parseFloat (Order.amount order)) = false ->
  isPaymentOrder (Order.productId order) = false ->
  pendingOrCancelled (Order.status order) = true ->
  isSharedProduct (products db !! Order.productId order) = false ->
  has_reservedAt db = true ->
  cards (snd (run env (fulfill orderId paidAmount tradeNo) db))
  = map (fun c =>
           if claimedBy (phase1Rows orderId order db) c
           then applyCardPatch (now env) ClaimReserved c
           else if claimedBy (phase2Rows env orderId order db) c
           then applyCardPatch (now env) ClaimAvailable c
           else c)
        (cards db).
Proof.
  intros Hfound Hok Hpay Hst Hsh H2.
  rewrite (run_fulfill parseFloat isPaymentOrder), Hfound. cbv zeta.
  rewrite Hok, Hpay, Hst, Hsh, H2, andb_false_r. simpl.
  apply unclaimed_cards_kept.
Qed.

(** X8. What an exhaustible-product call does to each card (the
    [reserved_at] column being there).  The cards after the call are the
    cards before it, in the same order, with id, product and key as they
    were; a card whose id is that of a row claimed in phase 1 is used, has
    a time of use, and has lost its reservation; one claimed in phase 2 is
    used, has a time of use, and keeps its reservation owner and time;
    every other card is exactly as it was. *)
Theorem cards_after_call env db orderId paidAmount tradeNo order :
  orders db !! orderId = Some order ->
  amountMismatch paidAmount (parseFloat (Order.amount order)) = false ->
  isPaymentOrder (Order.productId order) = false ->
  Order.status order = "pending" \/ Order.status order = "cancelled" ->
  isSharedProduct (products db !! Order.productId order) = false ->
  has_reservedAt db = true ->
  Forall2
    (fun c c' =>
       Card.id c' = Card.id c
       /\ Card.productId c' = Card.productId c
       /\ Card.cardKey c' = Card.cardKey c
       /\ if claimedBy (phase1Rows orderId order db) c
          then Card.isUsed c' = Some true
               /\ Card.usedAt c' <> None
               /\ Card.reservedOrderId c' = None
               /\ Card.reservedAt c' = None
          else if claimedBy (phase2Rows env orderId order db) c
          then Card.isUsed c' = Some true
               /\ Card.usedAt c' <> None
               /\ Card.reservedOrderId c' = Card.reservedOrderId c
               /\ Card.reservedAt c' = Card.reservedAt c
          else c' = c)
    (cards db)
    (cards (snd (run env (fulfill orderId paidAmount tradeNo) db))).
Proof.
  intros Hfound Hok Hpay Hst Hsh H2. apply pendingOrCancelled_spec in Hst.
  rewrite (cards_after_fulfill _ _ _ _ _ _ Hfound Hok Hpay Hst Hsh H2).
  induction (cards db) as [|c cs IH]; [constructor|].
  simpl map. constructor; [|exact IH].
  destruct (claimedBy (phase1Rows orderId order db) c).
  { simpl. repeat split; discriminate. }
  destruct (claimedBy (phase2Rows env orderId order db) c).
  { simpl. repeat split; discriminate. }
  repeat split.
Qed.


(** The cards after a call, next to the card updates it issues: nothing,
    or the rows the two phases claimed. *)
Lemma effect_on_cards env db orderId paidAmount tradeNo :
  has_reservedAt db = true ->
  (cards (snd (run env (fulfill orderId paidAmount tradeNo) db)) = cards db
   /\ updatedIds (trace env (fulfill orderId paidAmount tradeNo) db) = [])
  \/ exists order,
       orders db !! orderId = Some order
       /\ cards (snd (run env (fulfill orderId paidAmount tradeNo) db))
          = phase2Cards env orderId order db
       /\ updatedIds (trace env (fulfill orderId paidAmount tradeNo) db)
          = map Row.id (claimedRows env orderId order db).
Proof.
  intros H2.
  rewrite (run_fulfill parseFloat isPaymentOrder),
          (trace_fulfill parseFloat isPaymentOrder).
  destruct (orders db !! orderId) as [order|] eqn:Hfound; [|left; auto].
  cbv zeta. destruct (amountMismatch _ _); [left; auto|].
  destruct (isPaymentOrder _).
  { destruct (pendingOrCancelled _); left; auto. }
  destruct (pendingOrCancelled _); [|left; auto].
  destruct (isSharedProduct _);
    [destruct (sharedOverflow _ _ _); left; auto|].
  rewrite H2, andb_false_r. right. exists order.
  repeat split.
  change (updatedIds (?a :: ?b :: ?l)) with (updatedIds l).
  apply updatedIds_fulfillExhaustible, H2.
Qed.

Lemma updatedIds_fulfill env db orderId paidAmount tradeNo :
  has_reservedAt db = true ->
  updatedIds (trace env (fulfill orderId paidAmount tradeNo) db) = []
  \/ exists order,
       orders db !! orderId = Some order
       /\ updatedIds (trace env (fulfill orderId paidAmount tradeNo) db)
          = map Row.id (claimedRows env orderId order db).
Proof.
  intros H2.
  destruct (effect_on_cards env db orderId paidAmount tradeNo H2)
    as [[_ H]|[order [Hfound [_ H]]]]; eauto.
Qed.

(** X10. With distinct card ids (and the [reserved_at] column there), no
    call updates the same card twice: the card updates among its statements
    name distinct ids, at most [quantity] of them. *)
Theorem no_card_updated_twice env db orderId paidAmount tradeNo :
  has_reservedAt db = true ->
  List.NoDup (map Card.id (cards db)) ->
  let ids := updatedIds (trace env (fulfill orderId paidAmount tradeNo) db) in
  List.NoDup ids
  /\ forall order, orders db !! orderId = Some order ->
                    length ids <= quantityOr1 (Order.quantity order).
Proof.
  intros H2 Hnd ids. subst ids.
  destruct (updatedIds_fulfill env db orderId paidAmount tradeNo H2)
    as [->|[order [Hfound ->]]].
  - split; [constructor|]. intros; simpl; lia.
  - split; [apply NoDup_claimedRows, Hnd|].
    intros o Ho. rewrite Hfound in Ho. injection Ho as <-.
    rewrite length_map.
    pose proof (length_claimedKeys env orderId order db) as Hlen.
    unfold claimedKeys in Hlen. rewrite length_map in Hlen. exact Hlen.
Qed.

(** X11. Stock accounting.  With distinct card ids (and the [reserved_at]
    column there), every call lowers the number of unused cards by exactly
    the number of card updates it issues. *)
Theorem stock_accounting env db orderId paidAmount tradeNo :
  has_reservedAt db = true ->
  List.NoDup (map Card.id (cards db)) ->
  length (List.filter unused
            (cards (snd (run env (fulfill orderId paidAmount tradeNo) db))))
  + length (updatedIds (trace env (fulfill orderId paidAmount tradeNo) db))
  = length (List.filter unused (cards db)).
Proof.
  intros H2 Hnd.
  destruct (effect_on_cards env db orderId paidAmount tradeNo H2)
    as [[-> ->]|[order [Hfound [-> ->]]]]; [simpl; lia|].
  set (rows := claimedRows env orderId order db).
  rewrite unclaimed_cards_kept, length_map.
  rewrite (length_filter_map unused
             (fun c => unused c && negb (claimedBy rows c))).
  2:{ intros c _. subst rows. unfold claimedRows. rewrite claimedBy_app.
      destruct (claimedBy (phase1Rows _ _ _) c); simpl;
        [rewrite andb_false_r; reflexivity|].
      destruct (claimedBy (phase2Rows _ _ _ _) c); simpl;
        [rewrite andb_false_r; reflexivity|].
      rewrite andb_true_r. reflexivity. }
  rewrite (length_filter_split unused (claimedBy rows) (cards db)).
  f_equal. unfold rows at 1.
  rewrite <- (length_claimed_cards env orderId order db Hnd). fold rows.
  apply length_filter_ext_In. intros c Hc.
  destruct (claimedBy rows c) eqn:Hcl; [|symmetry; apply andb_false_r].
  rewrite andb_true_r. symmetry.
  apply claimedBy_In in Hcl. destruct Hcl as [r [Hr Hid]].
  destruct (claimedRows_unused _ _ _ _ _ Hr) as [c0 [Hc0 [-> Hu]]].
  assert (c0 = c) by (eapply NoDup_map_In; eauto).
  congruence.
Qed.

(** X12. A call leaves every order other than its own exactly as it
    was. *)
Theorem other_orders_untouched env db orderId paidAmount tradeNo other :
  other <> orderId ->
  orders (snd (run env (fulfill orderId paidAmount tradeNo) db)) !! other
  = orders db !! other.
Proof.
  intros Hne.
  destruct (run_fulfill_orders parseFloat isPaymentOrder
              env db orderId paidAmount tradeNo)
    as [->|[order [p [_ [_ [-> _]]]]]]; [reflexivity|].
  apply lookup_insert_ne. congruence.
Qed.

(** X13. Whatever calls are in flight and however their statements
    interleave, and likewise for calls made one after the other: the
    products and the columns stay as they are, no order appears or
    disappears or changes its product, amount or quantity, no card appears
    or disappears or changes its id, product or key, and a used card stays
    used. *)
Theorem calls_keep_the_inventory env sched calls db :
  Kept db
       (snd (runSchedule env sched
               (map (fun c => fulfill (callOrderId c) (callPaidAmount c)
                                      (callTradeNo c))
                    calls)
               db))
  /\ Kept db (runCalls parseFloat isPaymentOrder calls db).
Proof.
  split; [apply Kept_runSchedule|].
  revert db. induction calls as [|c calls IH]; intros db; [apply Kept_refl|].
  change (runCalls parseFloat isPaymentOrder (c :: calls) db)
    with (runCalls parseFloat isPaymentOrder calls
            (runCall parseFloat isPaymentOrder db c)).
  eapply Kept_trans; [apply Kept_run|apply IH].
Qed.

(** X14. A call issues at most [quantity] + 6 statements, the clock read
    included; a call for an unknown order issues one. *)
Theorem statement_count_bound env db orderId paidAmount tradeNo :
  length (trace env (fulfill orderId paidAmount tradeNo) db)
  <= match orders db !! orderId with
     | Some order => quantityOr1 (Order.quantity order) + 6
     | None => 1
     end.
Proof.
  rewrite (trace_fulfill parseFloat isPaymentOrder).
  destruct (orders db !! orderId) as [order|]; [|simpl; lia].
  destruct (amountMismatch _ _); [simpl; lia|].
  destruct (isPaymentOrder _).
  { destruct (pendingOrCancelled _); simpl; lia. }
  destruct (pendingOrCancelled _); [|simpl; lia].
  destruct (isSharedProduct _);
    [destruct (sharedOverflow _ _ _); simpl; lia|].
  destruct (has_reservedAt db) eqn:H2.
  - rewrite (trace_fulfillExhaustible _ _ _ _ _ H2). cbv zeta.
    pose proof (length_claimedKeys env orderId order db) as Hlen.
    unfold claimedKeys, claimedRows in Hlen.
    rewrite length_map, length_app in Hlen.
    simpl. rewrite !length_app, length_map. simpl.
    assert (Hif :
      length (if length (phase1Rows orderId order db)
                 <? quantityOr1 (Order.quantity order)
              then LSelectAvailableCards (Order.productId order)
                     (now env - 60000)
                     (quantityOr1 (Order.quantity order)
                      - length (phase1Rows orderId order db))
                   :: map (fun r => LUpdateCard (Row.id r) ClaimAvailable)
                          (phase2Rows env orderId order db)
              else [])
      <= 1 + length (phase2Rows env orderId order db)).
    { destruct (_ <? _); simpl; [rewrite length_map|]; lia. }
    match goal with
    | |- context [length (if ?c then ?a else ?b)] =>
        set (steps2 := length (if c then a else b)) in *
    end.
    lia.
  - pose proof (trace_fulfillExhaustible_nocol env orderId tradeNo order db H2).
    cbn [length]. lia.
Qed.

(** The call fails on the amount exactly when the guard's test holds. *)
Lemma mismatch_iff env db orderId paidAmount tradeNo order :
  orders db !! orderId = Some order ->
  (exists m p, fst (run env (fulfill orderId paidAmount tradeNo) db)
               = Raise (AmountMismatch m p))
  <-> amountMismatch paidAmount (parseFloat (Order.amount order)) = true.
Proof.
  intros Hfound. rewrite (run_fulfill parseFloat isPaymentOrder), Hfound.
  cbv zeta. destruct (amountMismatch _ _).
  { split; [reflexivity|]. intros _. eauto. }
  split; [|discriminate]. intros [m [p H]]. revert H.
  destruct (isPaymentOrder _).
  { destruct (pendingOrCancelled _); discriminate. }
  destruct (pendingOrCancelled _); [|discriminate].
  destruct (isSharedProduct _);
    [destruct (sharedOverflow _ _ _); discriminate|].
  destruct (_ && _); discriminate.
Qed.

(** X15. Paying exactly the amount the order's text reads as is never
    refused for the amount, whatever that amount is. *)
Theorem exact_amount_is_accepted env db orderId tradeNo order m p :
  orders db !! orderId = Some order ->
  fst (run env (fulfill orderId (parseFloat (Order.amount order)) tradeNo) db)
  <> Raise (AmountMismatch m p).
Proof.
  intros Hfound H.
  assert (Hex : exists m p,
             fst (run env (fulfill orderId (parseFloat (Order.amount order))
                                   tradeNo) db)
             = Raise (AmountMismatch m p)) by eauto.
  apply (mismatch_iff _ _ _ _ _ _ Hfound) in Hex.
  rewrite amountMismatch_diag in Hex. discriminate.
Qed.

(** X16. An order whose amount does not read as a number (NaN) passes the
    amount guard with every paid amount: the comparison with NaN is
    false. *)
Theorem unreadable_amount_is_never_refused env db orderId paidAmount tradeNo
    order m p :
  orders db !! orderId = Some order ->
  parseFloat (Order.amount order) = PrimFloat.nan ->
  fst (run env (fulfill orderId paidAmount tradeNo) db)
  <> Raise (AmountMismatch m p).
Proof.
  intros Hfound Hnan H.
  assert (Hex : exists m p,
             fst (run env (fulfill orderId paidAmount tradeNo) db)
             = Raise (AmountMismatch m p)) by eauto.
  apply (mismatch_iff _ _ _ _ _ _ Hfound) in Hex.
  rewrite Hnan, amountMismatch_nan_r in Hex. discriminate.
Qed.

(** X17. The guard treats paying too much like paying too little: a call
    paying [y] for an order of amount [x] is refused for the amount exactly
    when a call paying [x] for an order of amount [y] is. *)
Theorem guard_is_symmetric env db orderId tradeNo order
    env' db' orderId' tradeNo' order' :
  orders db !! orderId = Some order ->
  orders db' !! orderId' = Some order' ->
  let x := parseFloat (Order.amount order) in
  let y := parseFloat (Order.amount order') in
  (exists m p, fst (run env (fulfill orderId y tradeNo) db)
               = Raise (AmountMismatch m p))
  <-> (exists m p, fst (run env' (fulfill orderId' x tradeNo') db')
                   = Raise (AmountMismatch m p)).
Proof.
  intros Hfound Hfound' x y. subst x y.
  rewrite (mismatch_iff _ _ _ _ _ _ Hfound),
          (mismatch_iff _ _ _ _ _ _ Hfound').
  rewrite amountMismatch_comm. reflexivity.
Qed.

(** X18. An order whose quantity is unset or zero is served as an order of
    one: when a call makes it delivered, [cardKey] is the key of one card,
    with no separator. *)
Theorem unset_quantity_is_one env db orderId paidAmount tradeNo order order' :
  orders db !! orderId = Some order ->
  Order.quantity order = None \/ Order.quantity order = Some 0 ->
  Order.status order <> "delivered" ->
  orders (snd (run env (fulfill orderId paidAmount tradeNo) db)) !! orderId
  = Some order' ->
  Order.status order' = "delivered" ->
  exists c, In c (cards db) /\ Order.cardKey order' = Some (Card.cardKey c).
Proof.
  intros Hfound Hq Hnot.
  assert (Hone : quantityOr1 (Order.quantity order) = 1)
    by (destruct Hq as [-> | ->]; reflexivity).
  rewrite (run_fulfill parseFloat isPaymentOrder), Hfound. cbv zeta.
  assert (Hsame : forall o, orders db !! orderId = Some o ->
                            Order.status o = "delivered" -> False).
  { intros o Ho. rewrite Hfound in Ho. injection Ho as <-. exact Hnot. }
  destruct (amountMismatch _ _); [intros; exfalso; eauto|].
  destruct (isPaymentOrder _).
  { destruct (pendingOrCancelled _); [|intros; exfalso; eauto].
    simpl snd. rewrite lookup_patchOrder, Hfound. simpl.
    intros [= <-]. discriminate. }
  destruct (pendingOrCancelled _); [|intros; exfalso; eauto].
  destruct (isSharedProduct _).
  { destruct (sharedOverflow _ _ _); [intros; exfalso; eauto|].
    simpl snd. rewrite lookup_patchOrder, Hfound. simpl fmap.
    unfold sharedRow.
    destruct (List.filter (sharedEligible (Order.productId order)) (cards db))
      as [|c0 cs0] eqn:Hf.
    - simpl map. rewrite pickOne_nil. simpl. intros [= <-]. discriminate.
    - destruct (pickOne_cons (rnd env) (map toRow (c0 :: cs0)))
        as [row [-> Hrow]]; [discriminate|].
      simpl sharedPatch. rewrite Hone. intros [= <-] _.
      apply list_elem_of_In, in_map_iff in Hrow.
      destruct Hrow as [c [<- Hc]]. rewrite <- Hf in Hc.
      apply filter_In in Hc. exists c. split; [tauto|reflexivity]. }
  destruct (_ && _); [intros; exfalso; eauto|].
  simpl snd. rewrite lookup_patchOrder. simpl orders. rewrite Hfound.
  simpl fmap.
  pose proof (length_claimedKeys env orderId order db) as Hlen.
  rewrite Hone in Hlen. unfold settlePatch.
  destruct (claimedKeys env orderId order db) as [|k [|k' ks]] eqn:Hk;
    [simpl; intros [= <-]; discriminate| |simpl in Hlen; lia].
  simpl. intros [= <-] _.
  assert (Hin : In k (claimedKeys env orderId order db))
    by (rewrite Hk; left; reflexivity).
  unfold claimedKeys in Hin. apply in_map_iff in Hin.
  destruct Hin as [r [<- Hr]].
  destruct (claimedRows_unused _ _ _ _ _ Hr) as [c [Hc [-> _]]].
  exists c. split; [assumption|reflexivity].
Qed.

(** X19. A call writes the orders table at most once, for its own order,
    and that write is its last statement: every card update comes before
    it. *)
Theorem order_is_written_last env db orderId paidAmount tradeNo i o p :
  trace env (fulfill orderId paidAmount tradeNo) db !! i
  = Some (LUpdateOrder o p) ->
  o = orderId
  /\ S i = length (trace env (fulfill orderId paidAmount tradeNo) db).
Proof.
  rewrite (trace_fulfill parseFloat isPaymentOrder).
  destruct (orders db !! orderId) as [order|].
  2:{ destruct i as [|[|i]]; discriminate. }
  destruct (amountMismatch _ _).
  { destruct i as [|[|i]]; discriminate. }
  destruct (isPaymentOrder _).
  { destruct (pendingOrCancelled _).
    - destruct i as [|[|[|i]]]; try discriminate.
      simpl. intros [= <- <-]. auto.
    - destruct i as [|[|i]]; discriminate. }
  destruct (pendingOrCancelled _).
  2:{ destruct i as [|[|i]]; discriminate. }
  destruct (isSharedProduct _).
  { destruct (sharedOverflow _ _ _).
    - destruct i as [|[|[|[|i]]]]; discriminate.
    - destruct i as [|[|[|[|[|i]]]]]; try discriminate.
      simpl. intros [= <- <-]. auto. }
  destruct (trace_fulfillExhaustible_shape env orderId tradeNo order db)
    as [pre [post [-> [Hpre Hpost]]]].
  intros Hi.
  change (LFindOrder orderId :: LFindProduct (Order.productId order)
          :: pre ++ post)
    with ((LFindOrder orderId :: LFindProduct (Order.productId order) :: pre)
          ++ post) in *.
  eapply order_update_at_end; [|exact Hpost|exact Hi].
  simpl. exact Hpre.
Qed.

(** X20. What a call records on its order: either the order is exactly as
    it was, or the trade number is the call's, a payment time is set,
    product, amount and quantity are as they were, and the order is paid,
    with delivery time, key and payment id as they were, or delivered, with
    a delivery time and a key set.  The payment id is cleared when a shared
    product is delivered and kept when an exhaustible one is. *)
Theorem order_after_call env db orderId paidAmount tradeNo order order' :
  orders db !! orderId = Some order ->
  orders (snd (run env (fulfill orderId paidAmount tradeNo) db)) !! orderId
  = Some order' ->
  order' = order
  \/ (Order.tradeNo order' = Some tradeNo
      /\ Order.paidAt order' <> None
      /\ Order.productId order' = Order.productId order
      /\ Order.amount order' = Order.amount order
      /\ Order.quantity order' = Order.quantity order
      /\ ((Order.status order' = "paid"
           /\ Order.deliveredAt order' = Order.deliveredAt order
           /\ Order.cardKey order' = Order.cardKey order
           /\ Order.currentPaymentId order' = Order.currentPaymentId order)
          \/ (Order.status order' = "delivered"
              /\ Order.deliveredAt order' <> None
              /\ (exists keys, Order.cardKey order' = Some keys)
              /\ (if isSharedProduct (products db !! Order.productId order)
                  then Order.currentPaymentId order' = None
                  else Order.currentPaymentId order'
                       = Order.currentPaymentId order)))).
Proof.
  intros Hfound. rewrite (run_fulfill parseFloat isPaymentOrder), Hfound.
  cbv zeta.
  assert (Hsame : orders db !! orderId = Some order' -> order' = order)
    by congruence.
  assert (Hpaid : forall t,
    let o := applyOrderPatch t (SetPaid tradeNo) order in
    Order.tradeNo o = Some tradeNo
    /\ Order.paidAt o <> None
    /\ Order.productId o = Order.productId order
    /\ Order.amount o = Order.amount order
    /\ Order.quantity o = Order.quantity order
    /\ Order.status o = "paid"
    /\ Order.deliveredAt o = Order.deliveredAt order
    /\ Order.cardKey o = Order.cardKey order
    /\ Order.currentPaymentId o = Order.currentPaymentId order).
  { intros t. simpl. repeat split; discriminate. }
  destruct (amountMismatch _ _); [auto|].
  destruct (isPaymentOrder _).
  { destruct (pendingOrCancelled _); [|auto].
    simpl snd. rewrite lookup_patchOrder, Hfound. simpl fmap.
    intros [= <-]. right.
    destruct (Hpaid (now env)) as (? & ? & ? & ? & ? & ? & ? & ? & ?).
    auto 10. }
  destruct (pendingOrCancelled _); [|auto].
  destruct (isSharedProduct _).
  { destruct (sharedOverflow _ _ _); [auto|].
    simpl snd. rewrite lookup_patchOrder, Hfound. simpl fmap.
    destruct (sharedRow env order db) as [|card rest]; simpl sharedPatch;
      intros [= <-]; right.
    - destruct (Hpaid (now env)) as (? & ? & ? & ? & ? & ? & ? & ? & ?).
      auto 10.
    - simpl. split; [reflexivity|]. split; [discriminate|].
      split; [reflexivity|]. split; [reflexivity|]. split; [reflexivity|].
      right. split; [reflexivity|]. split; [discriminate|]. eauto. }
  destruct (_ && _).
  { simpl. auto. }
  simpl snd. rewrite lookup_patchOrder. simpl orders. rewrite Hfound.
  simpl fmap. unfold settlePatch.
  destruct (0 <? _); intros [= <-]; right.
  - simpl. split; [reflexivity|]. split; [discriminate|].
    split; [reflexivity|]. split; [reflexivity|]. split; [reflexivity|].
    right. split; [reflexivity|]. split; [discriminate|]. eauto.
  - destruct (Hpaid (now env)) as (? & ? & ? & ? & ? & ? & ? & ? & ?).
    auto 10.
Qed.

End Further.

(** ** Further worked examples *)

(** A route parameter of a space and a tab. *)
Lemma GET_blank_id_witness :
  Route.GET Ex2.UrlCall Ex2.URL2 (Some [32; 9]%N) Ex2.requestUrl
  = Route.redirect Ex2.UrlCall (Ex2.URL2 (Route.units "/") Ex2.requestUrl).
Proof.
  apply (RouteFacts.GET_blank_id Ex2.URL2 (Some [32; 9]%N) Ex2.requestUrl).
  reflexivity.
Defined.

(** The id [ord_123] between a space and a line feed: the handler calls
    [new URL("/order/ord_123", url)]. *)
Lemma GET_order_id_witness :
  Route.GET Ex2.UrlCall Ex2.URL2
            (Some ([32] ++ Route.units "ord_123" ++ [10])%N) Ex2.requestUrl
  = Route.redirect Ex2.UrlCall
      (Ex2.URL2 (Route.units "/order/ord_123") Ex2.requestUrl).
Proof.
  apply (RouteFacts.GET_order_id Ex2.URL2 [32]%N (Route.units "ord_123")
           [10]%N 111%N 51%N Ex2.requestUrl); reflexivity.
Defined.

Lemma order_not_found_witness :
  run Ex.env0 (fulfill0 "nope" 9.99%float "T1") Ex.db1
  = (Raise (OrderNotFound "nope"), Ex.db1)
  /\ trace Ex.env0 (fulfill0 "nope" 9.99%float "T1") Ex.db1
     = [LFindOrder "nope"].
Proof.
  apply (order_not_found parseDecimal isPaymentProduct Ex.env0 Ex.db1
           "nope" 9.99%float "T1").
  vm_compute. reflexivity.
Defined.

(** The call on the store without reservation columns fails and changes
    nothing. *)
Lemma failed_call_changes_nothing_witness :
  snd (run Ex.env0 (fulfill0 "o1" 9.99%float "T1") Ex.db_nocols)
  = Ex.db_nocols.
Proof.
  apply (failed_call_changes_nothing parseDecimal isPaymentProduct Ex.env0
           Ex.db_nocols "o1" 9.99%float "T1" (NoSuchColumn "reserved_at")).
  vm_compute. reflexivity.
Defined.

(** A refunded order is answered [already_processed]. *)
Lemma other_status_is_processed_witness :
  snd (run Ex.env0 (fulfill0 "o1" 9.99%float "T1") Ex2.db_refunded)
  = Ex2.db_refunded
  /\ trace Ex.env0 (fulfill0 "o1" 9.99%float "T1") Ex2.db_refunded
     = [LFindOrder "o1"]
  /\ fst (run Ex.env0 (fulfill0 "o1" 9.99%float "T1") Ex2.db_refunded)
     = Ok already_processed_.
Proof.
  destruct (other_status_is_processed parseDecimal isPaymentProduct Ex.env0
              Ex2.db_refunded "o1" 9.99%float "T1" Ex2.o_refunded)
    as [H1 [H2 H3]];
    [vm_compute; reflexivity | vm_compute; discriminate
     | vm_compute; discriminate | ].
  split; [exact H1 | split; [exact H2 | ]].
  apply H3. vm_compute. reflexivity.
Defined.

(** Paid for lack of stock; called again once a unit is there: nothing
    happens. *)
Lemma returned_call_is_final_witness :
  snd (run (mkEnv 2000000 0) (fulfill0 "o1" 9.99%float "T2") Ex2.db_restocked)
  = Ex2.db_restocked.
Proof.
  apply (returned_call_is_final parseDecimal isPaymentProduct Ex.env0
           Ex2.db_empty "o1" 9.99%float "T1" processed_
           (Ex.store [("o1", Ex2.o1_paid)] [("p1", Ex.exhaustible)] []));
    vm_compute; reflexivity.
Defined.


(** Units 1 and 3 are claimed in phase 2: unit 1 keeps the reservation of
    order [a]. *)
Lemma cards_after_call_witness :
  Forall2
    (fun c c' =>
       Card.id c' = Card.id c
       /\ Card.productId c' = Card.productId c
       /\ Card.cardKey c' = Card.cardKey c
       /\ if claimedBy (phase1Rows "b" Ex.ob Ex.db_stale) c
          then Card.isUsed c' = Some true
               /\ Card.usedAt c' <> None
               /\ Card.reservedOrderId c' = None
               /\ Card.reservedAt c' = None
          else if claimedBy (phase2Rows Ex.env0 "b" Ex.ob Ex.db_stale) c
          then Card.isUsed c' = Some true
               /\ Card.usedAt c' <> None
               /\ Card.reservedOrderId c' = Card.reservedOrderId c
               /\ Card.reservedAt c' = Card.reservedAt c
          else c' = c)
    [Ex.reservedCard 1 "p1" "K1" "a" 880000;
     Ex.reservedCard 2 "p1" "K2" "a" 999000;
     Ex.card 3 "p1" "K3"]
    (cards (snd (run Ex.env0 (fulfill0 "b" 9.99%float "T1") Ex.db_stale))).
Proof.
  apply (cards_after_call parseDecimal isPaymentProduct Ex.env0
           Ex.db_stale "b" 9.99%float "T1" Ex.ob);
    [vm_compute; reflexivity | vm_compute; reflexivity
     | vm_compute; reflexivity | left; reflexivity
     | vm_compute; reflexivity | reflexivity].
Defined.


Lemma no_card_updated_twice_witness :
  List.NoDup
    (updatedIds (trace Ex.env0 (fulfill0 "b" 9.99%float "T1") Ex.db_stale)).
Proof.
  apply (no_card_updated_twice parseDecimal isPaymentProduct Ex.env0
           Ex.db_stale "b" 9.99%float "T1");
    [reflexivity | repeat constructor; simpl; intuition discriminate].
Defined.

(** Two unused cards fewer, two card updates. *)
Lemma stock_accounting_witness :
  length (List.filter unused
            (cards (snd (run Ex.env0 (fulfill0 "b" 9.99%float "T1")
                             Ex.db_stale))))
  + length (updatedIds
              (trace Ex.env0 (fulfill0 "b" 9.99%float "T1") Ex.db_stale))
  = 3.
Proof.
  apply (stock_accounting parseDecimal isPaymentProduct Ex.env0
           Ex.db_stale "b" 9.99%float "T1");
    [reflexivity | repeat constructor; simpl; intuition discriminate].
Defined.

Lemma other_orders_untouched_witness :
  orders (snd (run Ex.env0 (fulfill0 "b" 9.99%float "T1") Ex.db_stale)) !! "a"
  = Some (Ex.order "p1" "9.99" 2 "pending").
Proof.
  rewrite (other_orders_untouched parseDecimal isPaymentProduct Ex.env0
             Ex.db_stale "b" 9.99%float "T1" "a");
    [vm_compute; reflexivity | discriminate].
Defined.

Lemma exact_amount_is_accepted_witness :
  fst (run Ex.env0 (fulfill0 "o1" (parseDecimal "9.99") "T1") Ex.db1)
  <> Raise (AmountMismatch (parseDecimal "9.99") (parseDecimal "9.99")).
Proof.
  apply (exact_amount_is_accepted parseDecimal isPaymentProduct Ex.env0
           Ex.db1 "o1" "T1" Ex.o1).
  vm_compute. reflexivity.
Defined.

(** The amount [free]: a payment of one cent goes through. *)
Lemma unreadable_amount_is_never_refused_witness :
  fst (run Ex.env0 (fulfill0 "o1" 0.01%float "T1") Ex2.db_free)
  <> Raise (AmountMismatch PrimFloat.nan 0.01%float).
Proof.
  apply (unreadable_amount_is_never_refused parseDecimal isPaymentProduct
           Ex.env0 Ex2.db_free "o1" 0.01%float "T1" Ex2.o_free);
    vm_compute; reflexivity.
Defined.

(** 5.00 paid for the order of 9.99, and 9.99 paid for the order of 5.00. *)
Lemma guard_is_symmetric_witness :
  (exists m p, fst (run Ex.env0 (fulfill0 "o1" (parseDecimal "5.00") "T1")
                        Ex.db1)
               = Raise (AmountMismatch m p))
  <-> (exists m p, fst (run Ex.env0 (fulfill0 "o9" (parseDecimal "9.99") "T2")
                            Ex.db_pay)
                   = Raise (AmountMismatch m p)).
Proof.
  apply (guard_is_symmetric parseDecimal isPaymentProduct Ex.env0 Ex.db1
           "o1" "T1" Ex.o1 Ex.env0 Ex.db_pay "o9" "T2" Ex.pay1);
    vm_compute; reflexivity.
Defined.

(** No quantity, two cards in stock: one key is delivered. *)
Lemma unset_quantity_is_one_witness :
  exists c, In c (cards Ex2.db_noqty)
            /\ Order.cardKey (Ex.delivered Ex2.o_noqty "T1" "K1")
               = Some (Card.cardKey c).
Proof.
  apply (unset_quantity_is_one parseDecimal isPaymentProduct Ex.env0
           Ex2.db_noqty "o1" 9.99%float "T1" Ex2.o_noqty);
    [vm_compute; reflexivity | left; reflexivity | vm_compute; discriminate
     | vm_compute; reflexivity | reflexivity].
Defined.

(** Unit 1 goes to order [a]; the call for [b] that follows does not
    update it. *)
Lemma sequential_calls_claim_disjoint_witness :
  ~ In (LUpdateCard 1 ClaimAvailable)
       (traceCall parseDecimal isPaymentProduct
          (runCalls parseDecimal isPaymentProduct []
             (runCall parseDecimal isPaymentProduct Ex.db_race Ex2.call_a))
          Ex2.call_b).
Proof.
  apply (sequential_calls_claim_disjoint parseDecimal isPaymentProduct
           Ex.db_race Ex2.call_a [] Ex2.call_b 1%Z ClaimAvailable
           ClaimAvailable);
    [reflexivity | vm_compute; do 5 right; left; reflexivity].
Defined.

(** The call on [Ex.db1] issues seven statements; the order is written by
    the seventh. *)
Lemma order_is_written_last_witness :
  "o1" = "o1"
  /\ 7 = length (trace Ex.env0 (fulfill0 "o1" 9.99%float "T1") Ex.db1).
Proof.
  apply (order_is_written_last parseDecimal isPaymentProduct Ex.env0 Ex.db1
           "o1" 9.99%float "T1" 6 "o1" (settlePatch "T1" ["K1"])).
  vm_compute. reflexivity.
Defined.

(** The shared-product order is delivered and its payment id cleared. *)
Lemma order_after_call_witness :
  Ex2.o4_delivered = Ex.o4
  \/ (Order.tradeNo Ex2.o4_delivered = Some "T1"
      /\ Order.paidAt Ex2.o4_delivered <> None
      /\ Order.productId Ex2.o4_delivered = Order.productId Ex.o4
      /\ Order.amount Ex2.o4_delivered = Order.amount Ex.o4
      /\ Order.quantity Ex2.o4_delivered = Order.quantity Ex.o4
      /\ ((Order.status Ex2.o4_delivered = "paid"
           /\ Order.deliveredAt Ex2.o4_delivered = Order.deliveredAt Ex.o4
           /\ Order.cardKey Ex2.o4_delivered = Order.cardKey Ex.o4
           /\ Order.currentPaymentId Ex2.o4_delivered
              = Order.currentPaymentId Ex.o4)
          \/ (Order.status Ex2.o4_delivered = "delivered"
              /\ Order.deliveredAt Ex2.o4_delivered <> None
              /\ (exists keys, Order.cardKey Ex2.o4_delivered = Some keys)
              /\ Order.currentPaymentId Ex2.o4_delivered = None))).
Proof.
  apply (order_after_call parseDecimal isPaymentProduct Ex.env0 Ex.db_shared
           "o4" 9.99%float "T1" Ex.o4 Ex2.o4_delivered);
    vm_compute; reflexivity.
Defined.
